(** * PNG to BMP converter: a shallow embedding of [src/utils/convert.ts]

    The development follows the source file top to bottom:
    - the two header builders [createBmpFileHeader] and [createBmpInfoHeader],
      written against a model of [ArrayBuffer] / [DataView];
    - the pixel transcoder [convertToBGRA], written against a model of
      [Uint8Array] indexing and of the counting [for] loop;
    - the entry point [convertPngToBmp], written in a state-and-exception
      monad over the browser's object-URL store, with the platform's image
      decoder and canvas taken as a record of parameters.

    JavaScript numbers are modelled as [Z]: every number the code computes is
    an integer, and integers are exact in a double below 2^53.  The model is
    the code on numbers of that range and on buffers the engine can
    allocate; the statements below keep to them, by a bound on the sizes or
    by tying a size to the length of a buffer that exists.  Bytes are
    [Init.Byte.byte]; a byte buffer is a [list byte]. *)

From Stdlib Require Import ZArith Lia String Ascii List.
From coqutil Require Import Byte Word.LittleEndianList.
From stdpp Require Import base list.

Local Open Scope Z_scope.

(** ** Errors and fallible computations *)

(** The values the code can throw, or a promise can reject with. *)
Inductive exn : Type :=
| Error (message : string)
| RangeError (message : string)
| DOMException (name : string)
| ErrorEvent.

Inductive result (A : Type) : Type :=
| Ok (a : A)
| Err (e : exn).

Arguments Ok {A} a.
Arguments Err {A} e.

Definition bind {A B : Type} (r : result A) (k : A -> result B) : result B :=
  match r with
  | Ok a => k a
  | Err e => Err e
  end.

Declare Scope result_scope.
Delimit Scope result_scope with result.
Notation "'let*' x := e 'in' k" := (bind e (fun x => k))
  (at level 10, x name, e at level 100, k at level 200) : result_scope.

(** ** Byte buffers: [ArrayBuffer], [Uint8Array], [DataView] *)

Definition byteLength (buffer : list byte) : Z := Z.of_nat (length buffer).

(** [new ArrayBuffer(n)] and [new Uint8Array(n)]: [n] zero bytes; a negative
    length raises a [RangeError].  An engine raises a [RangeError] as well
    for a length above its own limit, which is not modelled: a statement
    that has a buffer allocated bounds its length by that of a buffer that
    exists. *)
Definition new_ArrayBuffer (n : Z) : result (list byte) :=
  if n <? 0 then Err (RangeError "Invalid array buffer length")
  else Ok (replicate (Z.to_nat n) Byte.x00).

Definition new_Uint8Array (n : Z) : result (list byte) :=
  if n <? 0 then Err (RangeError "Invalid typed array length")
  else Ok (replicate (Z.to_nat n) Byte.x00).

(** Overwrite [buffer] with [bs] from [byteOffset] on.  Both
    [DataView.prototype.set*] and [TypedArray.prototype.set] raise a
    [RangeError] when the written range does not fit. *)
Definition store (byteOffset : Z) (bs buffer : list byte) : result (list byte) :=
  if (byteOffset <? 0) || (byteLength buffer <? byteOffset + byteLength bs)
  then Err (RangeError "offset is out of bounds")
  else Ok (take (Z.to_nat byteOffset) buffer ++ bs
           ++ drop (Z.to_nat byteOffset + length bs) buffer).

(** The bytes at [byteOffset .. byteOffset + n), if they are all there. *)
Definition fetch (byteOffset : Z) (n : nat) (buffer : list byte) : result (list byte) :=
  if (byteOffset <? 0) || (byteLength buffer <? byteOffset + Z.of_nat n)
  then Err (RangeError "offset is out of bounds")
  else Ok (take n (drop (Z.to_nat byteOffset) buffer)).

Module DataView.

(** Byte order of a multi-byte field: least significant byte first when
    [littleEndian] is set. *)
Definition ordered (littleEndian : bool) (bs : list byte) : list byte :=
  if littleEndian then bs else rev bs.

(** The setters truncate the value to the field's width ([le_split] keeps
    the low bytes); a signed field stores the two's complement, which has
    the same low bytes. *)
Definition setUint8 (byteOffset value : Z) (buffer : list byte) :=
  store byteOffset (le_split 1 value) buffer.

Definition setUint16 (byteOffset value : Z) (littleEndian : bool) (buffer : list byte) :=
  store byteOffset (ordered littleEndian (le_split 2 value)) buffer.

Definition setUint32 (byteOffset value : Z) (littleEndian : bool) (buffer : list byte) :=
  store byteOffset (ordered littleEndian (le_split 4 value)) buffer.

Definition setInt32 (byteOffset value : Z) (littleEndian : bool) (buffer : list byte) :=
  store byteOffset (ordered littleEndian (le_split 4 value)) buffer.

(** The getters, used to read the headers back. *)
Definition getUint8 (byteOffset : Z) (buffer : list byte) : result Z :=
  (let* bs := fetch byteOffset 1 buffer in Ok (le_combine bs))%result.

Definition getUint16 (byteOffset : Z) (littleEndian : bool) (buffer : list byte) : result Z :=
  (let* bs := fetch byteOffset 2 buffer in Ok (le_combine (ordered littleEndian bs)))%result.

Definition getUint32 (byteOffset : Z) (littleEndian : bool) (buffer : list byte) : result Z :=
  (let* bs := fetch byteOffset 4 buffer in Ok (le_combine (ordered littleEndian bs)))%result.

(** Two's complement reading of a 32-bit pattern. *)
Definition toInt32 (u : Z) : Z := if u <? 2 ^ 31 then u else u - 2 ^ 32.

Definition getInt32 (byteOffset : Z) (littleEndian : bool) (buffer : list byte) : result Z :=
  (let* bs := fetch byteOffset 4 buffer in
   Ok (toInt32 (le_combine (ordered littleEndian bs))))%result.

End DataView.

(** ** The header builders *)

(** [createBmpFileHeader], lines 6-25: the 14-byte BMP file header.  The
    sum [54 + imageSize] is the code's as long as it stays below 2^53. *)
Definition createBmpFileHeader (imageSize : Z) : result (list byte) :=
  (let* buffer := new_ArrayBuffer 14 in
   (* BM magic number *)
   let* buffer := DataView.setUint8 0 0x42 buffer in
   let* buffer := DataView.setUint8 1 0x4D buffer in
   (* File size (header + info header + pixel data) *)
   let* buffer := DataView.setUint32 2 (54 + imageSize) true buffer in
   (* Reserved *)
   let* buffer := DataView.setUint16 6 0 true buffer in
   let* buffer := DataView.setUint16 8 0 true buffer in
   (* Pixel data offset *)
   let* buffer := DataView.setUint32 10 54 true buffer in
   Ok buffer)%result.

(** [createBmpInfoHeader], lines 30-62: the 40-byte BITMAPINFOHEADER.  The
    product [width * height * 4] is the code's as long as it stays below
    2^53 in magnitude. *)
Definition createBmpInfoHeader (width height : Z) : result (list byte) :=
  (let* buffer := new_ArrayBuffer 40 in
   (* Header size *)
   let* buffer := DataView.setUint32 0 40 true buffer in
   (* Width and height *)
   let* buffer := DataView.setInt32 4 width true buffer in
   let* buffer := DataView.setInt32 8 height true buffer in
   (* Planes *)
   let* buffer := DataView.setUint16 12 1 true buffer in
   (* Bits per pixel (32 for RGBA) *)
   let* buffer := DataView.setUint16 14 32 true buffer in
   (* Compression (0 = none) *)
   let* buffer := DataView.setUint32 16 0 true buffer in
   (* Image size (pixel data) *)
   let* buffer := DataView.setUint32 20 (width * height * 4) true buffer in
   (* Pixels per meter (72 DPI) *)
   let* buffer := DataView.setInt32 24 2835 true buffer in
   let* buffer := DataView.setInt32 28 2835 true buffer in
   (* Colors in color table *)
   let* buffer := DataView.setUint32 32 0 true buffer in
   let* buffer := DataView.setUint32 36 0 true buffer in
   Ok buffer)%result.

(** ** The pixel transcoder *)

(** [ImageData] of the canvas API: [data] holds [width * height] RGBA pixels,
    row by row from the top. *)
Record ImageData : Type := {
  width : Z;
  height : Z;
  data : list byte
}.

(** [a[i]] on a typed array: [undefined] ([None]) out of range. *)
Definition array_get (a : list byte) (i : Z) : option byte :=
  if i <? 0 then None else a !! Z.to_nat i.

(** Conversion of a stored value to an element of a [Uint8Array]:
    [undefined] becomes [NaN], which is stored as 0. *)
Definition ToUint8 (v : option byte) : byte := default Byte.x00 v.

(** [a[i] = v] on a [Uint8Array]: ignored out of range. *)
Definition array_set (a : list byte) (i : Z) (v : option byte) : list byte :=
  if i <? 0 then a else <[Z.to_nat i := ToUint8 v]> a.

(** [for (let i = 0; i < n; i++) body]: the body runs for [i = 0, 1, ..]
    up to [n - 1], in this order, and not at all when [n <= 0]. *)
Definition for_range {S : Type} (n : Z) (body : Z -> S -> S) (s : S) : S :=
  fold_left (fun s i => body (Z.of_nat i) s) (seq 0 (Z.to_nat n)) s.

(** [convertToBGRA], lines 67-88. *)
Definition convertToBGRA (imageData : ImageData) : result (list byte) :=
  let width := width imageData in
  let height := height imageData in
  let data := data imageData in
  (let* output := new_Uint8Array (width * height * 4) in
   Ok (for_range height (fun y output =>
         for_range width (fun x output =>
           (* Flip Y coordinate (BMP is bottom-up) *)
           let sourceY := height - 1 - y in
           let sourceIndex := (sourceY * width + x) * 4 in
           let targetIndex := (y * width + x) * 4 in
           (* Convert RGBA to BGRA *)
           let output := array_set output targetIndex (array_get data (sourceIndex + 2)) in
           let output := array_set output (targetIndex + 1) (array_get data (sourceIndex + 1)) in
           let output := array_set output (targetIndex + 2) (array_get data sourceIndex) in
           let output := array_set output (targetIndex + 3) (array_get data (sourceIndex + 3)) in
           output) output) output))%result.

(** ** Assembling the file *)

(** Lines 131-142 of [convertPngToBmp]: the headers, the pixel data and their
    concatenation into [bmpData]. *)
Definition assembleBmp (imageData : ImageData) (image_width image_height : Z)
  : result (list byte) :=
  ((* Create headers *)
   let* fileHeader := createBmpFileHeader (byteLength (data imageData)) in
   let* infoHeader := createBmpInfoHeader image_width image_height in
   (* Convert pixel data *)
   let* pixelData := convertToBGRA imageData in
   (* Combine all parts *)
   let* bmpData := new_Uint8Array
                     (byteLength fileHeader + byteLength infoHeader + byteLength pixelData) in
   let* bmpData := store 0 fileHeader bmpData in
   let* bmpData := store (byteLength fileHeader) infoHeader bmpData in
   let* bmpData := store (byteLength fileHeader + byteLength infoHeader) pixelData bmpData in
   Ok bmpData)%result.

(** ** Strings *)

(** [s.includes(searchString)]. *)
Fixpoint includes (searchString s : string) : bool :=
  String.prefix searchString s
  || match s with
     | EmptyString => false
     | String _ s' => includes searchString s'
     end.

(** [s] without its first [n] characters. *)
Fixpoint string_drop (n : nat) (s : string) : string :=
  match n, s with
  | O, _ => s
  | S n', String _ s' => string_drop n' s'
  | S _, EmptyString => EmptyString
  end.

(** [s.replace(pattern, replacement)] with a string pattern: the first
    occurrence of [pattern] is replaced, and [s] is returned as it is when
    there is none.  ([replacement] holds no [$], so it is taken literally.) *)
Fixpoint replace (pattern replacement s : string) : string :=
  if String.prefix pattern s
  then (replacement ++ string_drop (String.length pattern) s)%string
  else match s with
       | EmptyString => EmptyString
       | String c s' => String c (replace pattern replacement s')
       end.

(** ** The browser *)

Record Blob : Type := {
  blob_bytes : list byte;
  blob_type : string
}.

(** A [File] is a [Blob] with a name. *)
Module File.
Record t : Type := {
  name : string;
  type : string;
  bytes : list byte
}.

Definition blob (file : t) : Blob :=
  {| blob_bytes := bytes file; blob_type := type file |}.
End File.

(** An object URL is the index of its blob in the store. *)
Definition URL : Type := nat.

(** The result type of the source, lines 90-93. *)
Module ConvertedFile.
Record t : Type := {
  name : string;
  url : URL
}.
End ConvertedFile.

(** A loaded [HTMLImageElement]: its size and its decoded RGBA pixels. *)
Record HTMLImageElement : Type := {
  image_width : Z;
  image_height : Z;
  image_pixels : list byte
}.

(** What the code can observe of the page: the blobs registered by
    [URL.createObjectURL], in order, and the URLs an image load was started
    for. *)
Record World : Type := {
  object_urls : list Blob;
  image_loads : list URL
}.

(** The platform's decoder and canvas, which the code only calls.
    - [decode blob]: the outcome of loading an image from [blob], [Some] for
      [onload] and [None] for [onerror];
    - [getContext_2d w h]: whether a canvas of this size yields a 2D context;
    - [getImageData image sx sy sw sh]: [ctx.getImageData] on a canvas of the
      image's size after [ctx.drawImage(image, 0, 0)]. *)
Record Browser : Type := {
  decode : Blob -> option HTMLImageElement;
  getContext_2d : Z -> Z -> bool;
  getImageData : HTMLImageElement -> Z -> Z -> Z -> Z -> result ImageData
}.

(** ** Computations over the page: state and exceptions *)

Definition M (A : Type) : Type := World -> result A * World.

Definition ret {A : Type} (a : A) : M A := fun w => (Ok a, w).

Definition throw {A : Type} (e : exn) : M A := fun w => (Err e, w).

Definition lift {A : Type} (r : result A) : M A := fun w => (r, w).

Definition mbind {A B : Type} (m : M A) (k : A -> M B) : M B :=
  fun w =>
    match m w with
    | (Ok a, w') => k a w'
    | (Err e, w') => (Err e, w')
    end.

Declare Scope page_scope.
Delimit Scope page_scope with page.
Notation "'let*' x := e 'in' k" := (mbind e (fun x => k))
  (at level 10, x name, e at level 100, k at level 200) : page_scope.

(** [try { body } finally { finalizer }], where the try block ends in a
    [return] or a [throw].  A finalizer that falls through ([Ok None]) leaves
    the completion of the try block in place; a finalizer that itself returns
    or throws replaces it. *)
Definition try_finally {A : Type} (body : M A) (finalizer : M (option A)) : M A :=
  fun w =>
    let (completion, w1) := body w in
    match finalizer w1 with
    | (Ok None, w2) => (completion, w2)
    | (Ok (Some a), w2) => (Ok a, w2)
    | (Err e, w2) => (Err e, w2)
    end.

(** [URL.createObjectURL(blob)]: registers the blob under a fresh URL. *)
Definition createObjectURL (blob : Blob) : M URL :=
  fun w =>
    (Ok (length (object_urls w)),
     {| object_urls := object_urls w ++ [blob]; image_loads := image_loads w |}).

(** The blob behind an object URL. *)
Definition resolve (w : World) (u : URL) : option Blob := object_urls w !! u.

(** Lines 112-116: [image.src = imageUrl] starts the load, and the awaited
    promise resolves on [onload] and rejects, with the error event, on
    [onerror]. *)
Definition loadImage (browser : Browser) (imageUrl : URL) : M HTMLImageElement :=
  fun w =>
    let w' := {| object_urls := object_urls w;
                 image_loads := image_loads w ++ [imageUrl] |} in
    match resolve w imageUrl with
    | Some blob =>
        match decode browser blob with
        | Some image => (Ok image, w')
        | None => (Err ErrorEvent, w')
        end
    | None => (Err ErrorEvent, w')
    end.

(** ** The entry point *)

Definition outputName (file : File.t) : string :=
  replace ".png" ".bmp" (File.name file).

(** The try block, lines 111-147. *)
Definition convertPngToBmp_try (browser : Browser) (file : File.t) (imageUrl : URL)
  : M ConvertedFile.t :=
  ((* Load image *)
   let* image := loadImage browser imageUrl in
   (* Create canvas and get image data *)
   let canvas_width := image_width image in
   let canvas_height := image_height image in
   let* _ := if getContext_2d browser canvas_width canvas_height
             then ret tt
             else throw (Error "Failed to get canvas context") in
   let* imageData := lift (getImageData browser image 0 0
                             (image_width image) (image_height image)) in
   let* bmpData := lift (assembleBmp imageData (image_width image) (image_height image)) in
   let* url := createObjectURL {| blob_bytes := bmpData; blob_type := "image/bmp" |} in
   ret {| ConvertedFile.name := outputName file; ConvertedFile.url := url |})%page.

(** The finally block, lines 148-153: it returns, too. *)
Definition convertPngToBmp_finally (file : File.t) : M (option ConvertedFile.t) :=
  (let* url := createObjectURL (File.blob file) in
   ret (Some {| ConvertedFile.name := outputName file; ConvertedFile.url := url |}))%page.

(** [convertPngToBmp], lines 100-154.  The function is [async]: [Ok] is a
    fulfilled promise and [Err] a rejected one. *)
Definition convertPngToBmp (browser : Browser) (file : File.t) : M ConvertedFile.t :=
  (* Verify file type *)
  if negb (includes "png" (File.type file))
  then throw (Error "Only PNG files are supported")
  else
    ((* Create image from file *)
     let* imageUrl := createObjectURL (File.blob file) in
     try_finally (convertPngToBmp_try browser file imageUrl)
                 (convertPngToBmp_finally file))%page.

(** ** Names used by the statements and proofs *)

(** The RGBA channel a BGRA channel is taken from: blue and red trade
    places, green and alpha stay. *)
Definition channel (c : Z) : Z :=
  if c =? 0 then 2 else if c =? 2 then 0 else c.

(** The four assignments of the inner loop body of [convertToBGRA]. *)
Definition put_pixel (data : list byte) (sourceIndex targetIndex : Z)
           (output : list byte) : list byte :=
  let output := array_set output targetIndex (array_get data (sourceIndex + 2)) in
  let output := array_set output (targetIndex + 1) (array_get data (sourceIndex + 1)) in
  let output := array_set output (targetIndex + 2) (array_get data sourceIndex) in
  let output := array_set output (targetIndex + 3) (array_get data (sourceIndex + 3)) in
  output.

(** The inner loop body for a source row starting at pixel [sb] and a target
    row starting at pixel [tb], and the outer loop run for [j] rows. *)
Definition row_body (data : list byte) (sb tb : Z) (x : Z) (output : list byte)
  : list byte :=
  put_pixel data ((sb + x) * 4) ((tb + x) * 4) output.

Definition rows (data : list byte) (W H : Z) (j : Z) (out0 : list byte) : list byte :=
  for_range j
    (fun y output => for_range W (row_body data ((H - 1 - y) * W) (y * W)) output)
    out0.

(** ** Sample files, images and browsers *)

Definition png_signature : list byte :=
  [Byte.x89; Byte.x50; Byte.x4e; Byte.x47; Byte.x0d; Byte.x0a; Byte.x1a; Byte.x0a].

Definition photo_png : File.t :=
  {| File.name := "photo.png"; File.type := "image/png"; File.bytes := png_signature |}.

Definition noext : File.t :=
  {| File.name := "noext"; File.type := "image/png"; File.bytes := png_signature |}.

Definition twice_png : File.t :=
  {| File.name := "a.png.png"; File.type := "image/png"; File.bytes := png_signature |}.

Definition broken_png : File.t :=
  {| File.name := "broken.png"; File.type := "image/png"; File.bytes := [Byte.x00] |}.


Definition photo_jpg : File.t :=
  {| File.name := "photo.jpg"; File.type := "image/jpeg";
     File.bytes := [Byte.xff; Byte.xd8; Byte.xff] |}.

(** One pixel, RGBA = 10, 20, 30, 40. *)
Definition one_pixel : HTMLImageElement :=
  {| image_width := 1; image_height := 1;
     image_pixels := [Byte.x0a; Byte.x14; Byte.x1e; Byte.x28] |}.

(** Two rows of one pixel: RGBA = 1, 2, 3, 4 above RGBA = 5, 6, 7, 8. *)
Definition two_rows : ImageData :=
  {| width := 1; height := 2;
     data := [Byte.x01; Byte.x02; Byte.x03; Byte.x04;
              Byte.x05; Byte.x06; Byte.x07; Byte.x08] |}.

(** [getImageData] as the canvas API specifies it for a canvas that holds
    exactly the image: an [IndexSizeError] for an empty rectangle. *)
Definition canvas_getImageData (image : HTMLImageElement) (sx sy sw sh : Z)
  : result ImageData :=
  if (sw =? 0) || (sh =? 0)
  then Err (DOMException "IndexSizeError")
  else Ok {| width := Z.abs sw; height := Z.abs sh; data := image_pixels image |}.

(** A browser that decodes what starts like a PNG to [one_pixel] and fails
    on everything else. *)
Definition sample_browser : Browser :=
  {| decode := fun blob =>
       match blob_bytes blob with
       | Byte.x89 :: _ => Some one_pixel
       | _ => None
       end;
     getContext_2d := fun _ _ => true;
     getImageData := canvas_getImageData |}.

Definition empty_page : World := {| object_urls := []; image_loads := [] |}.

(** The page once [photo_png] has been registered under URL 0. *)
Definition photo_page : World :=
  {| object_urls := [File.blob photo_png]; image_loads := [] |}.

(** ** The converter component, [src/components/file-converter.tsx] *)

(** The progress shown is the double [((i + 1) / files.length) * 100].  It is
    kept as the two integers it is computed from; the initial and the reset
    value is the literal [0]. *)
Inductive Progress : Type :=
| Number (n : Z)
| Percent (done total : Z).

(** The four pieces of state of [FileConverterComponent], lines 11-14, and
    their setters. *)
Module Component.
Record t : Type := {
  files : list File.t;
  convertedFiles : list ConvertedFile.t;
  isConverting : bool;
  progress : Progress
}.

Definition setFiles (v : list File.t) (st : t) : t :=
  {| files := v; convertedFiles := convertedFiles st;
     isConverting := isConverting st; progress := progress st |}.

Definition setConvertedFiles (v : list ConvertedFile.t) (st : t) : t :=
  {| files := files st; convertedFiles := v;
     isConverting := isConverting st; progress := progress st |}.

Definition setIsConverting (v : bool) (st : t) : t :=
  {| files := files st; convertedFiles := convertedFiles st;
     isConverting := v; progress := progress st |}.

Definition setProgress (v : Progress) (st : t) : t :=
  {| files := files st; convertedFiles := convertedFiles st;
     isConverting := isConverting st; progress := v |}.

(** The state the component starts in. *)
Definition initial : t :=
  {| files := []; convertedFiles := []; isConverting := false;
     progress := Number 0 |}.
End Component.

(** [onDrop], lines 16-18. *)
Definition onDrop (acceptedFiles : list File.t) (st : Component.t) : Component.t :=
  Component.setFiles (Component.files st ++ acceptedFiles) st.

(** The loop of [handleConversion], lines 30-35, from index [i] on:
    [remaining] is [files] from [i] and [converted] the array filled so far.
    A rejected [convertPngToBmp] is not caught, so it ends the loop, and the
    handler, at once. *)
Fixpoint conversion_loop (browser : Browser) (files_length : Z) (i : Z)
         (remaining : list File.t) (converted : list ConvertedFile.t)
         (st : Component.t) (w : World)
  : result (list ConvertedFile.t) * Component.t * World :=
  match remaining with
  | [] => (Ok converted, st, w)
  | file :: rest =>
      match convertPngToBmp browser file w with
      | (Ok convertedFile, w') =>
          conversion_loop browser files_length (i + 1) rest
            (converted ++ [convertedFile])
            (Component.setProgress (Percent (i + 1) files_length) st) w'
      | (Err e, w') => (Err e, st, w')
      end
  end.

(** [handleConversion], lines 26-39, run to its end with no other event
    in between.  [files] is the array of the render the handler belongs to. *)
Definition handleConversion (browser : Browser) (st : Component.t) (w : World)
  : result unit * Component.t * World :=
  let files := Component.files st in
  let st := Component.setIsConverting true st in
  let st := Component.setProgress (Number 0) st in
  match conversion_loop browser (Z.of_nat (length files)) 0 files [] st w with
  | (Ok converted, st, w') =>
      let st := Component.setConvertedFiles converted st in
      let st := Component.setIsConverting false st in
      let st := Component.setFiles [] st in
      (Ok tt, st, w')
  | (Err e, st, w') => (Err e, st, w')
  end.

(** An integer that a double holds exactly ([Number.isSafeInteger]). *)
Definition safe_integer (n : Z) : Prop := - 2 ^ 53 < n < 2 ^ 53.

(** A file that passes the type check of [convertPngToBmp]. *)
Definition is_png (file : File.t) : Prop := includes "png" (File.type file) = true.

(** * Properties *)

(** ** Little-endian fields *)

Lemma le_combine_split_small (n : nat) (v : Z) :
  0 <= v < 2 ^ (Z.of_nat n * 8) -> le_combine (le_split n v) = v.
Proof. intros Hv. rewrite le_combine_split. apply Z.mod_small. exact Hv. Qed.

Lemma toInt32_wrap (v : Z) :
  - 2 ^ 31 <= v < 2 ^ 31 -> DataView.toInt32 (v mod 2 ^ 32) = v.
Proof.
  intros Hv. unfold DataView.toInt32.
  change (2 ^ 32) with 4294967296 in *. change (2 ^ 31) with 2147483648 in *.
  destruct (Z.ltb_spec (v mod 4294967296) 2147483648);
    Z.div_mod_to_equations; lia.
Qed.

Lemma toInt32_le_split (v : Z) :
  - 2 ^ 31 <= v < 2 ^ 31 -> DataView.toInt32 (le_combine (le_split 4 v)) = v.
Proof. intros Hv. rewrite le_combine_split. apply toInt32_wrap. exact Hv. Qed.

(** ** The header builders *)

(** Both builders always return, and their bytes are the fields in order. *)
Lemma createBmpFileHeader_bytes (imageSize : Z) :
  createBmpFileHeader imageSize
  = Ok ([Byte.x42; Byte.x4d] ++ le_split 4 (54 + imageSize)
        ++ [Byte.x00; Byte.x00; Byte.x00; Byte.x00] ++ le_split 4 54).
Proof. reflexivity. Qed.

Lemma createBmpInfoHeader_bytes (w h : Z) :
  createBmpInfoHeader w h
  = Ok (le_split 4 40 ++ le_split 4 w ++ le_split 4 h
        ++ le_split 2 1 ++ le_split 2 32 ++ le_split 4 0
        ++ le_split 4 (w * h * 4) ++ le_split 4 2835 ++ le_split 4 2835
        ++ le_split 4 0 ++ le_split 4 0).
Proof. reflexivity. Qed.

Example createBmpFileHeader_4 :
  createBmpFileHeader 4
  = Ok [Byte.x42; Byte.x4d; Byte.x3a; Byte.x00; Byte.x00; Byte.x00; Byte.x00;
        Byte.x00; Byte.x00; Byte.x00; Byte.x36; Byte.x00; Byte.x00; Byte.x00].
Proof. vm_compute. reflexivity. Qed.

(** Claim C5, as amended: for every pixelDataByteLength that is not negative
    and with 54 + pixelDataByteLength below 2^32, the file header builder
    returns exactly 14 bytes that begin with 0x42, 0x4D, hold
    54 + pixelDataByteLength as a little-endian unsigned 32-bit field at
    offset 2, two zero 16-bit reserved fields at offsets 6 and 8, and 54 as a
    little-endian unsigned 32-bit field at offset 10. *)
Theorem createBmpFileHeader_layout (pixelDataByteLength : Z) :
  0 <= pixelDataByteLength ->
  54 + pixelDataByteLength < 2 ^ 32 ->
  exists header,
    createBmpFileHeader pixelDataByteLength = Ok header
    /\ length header = 14%nat
    /\ DataView.getUint8 0 header = Ok 0x42
    /\ DataView.getUint8 1 header = Ok 0x4D
    /\ DataView.getUint32 2 true header = Ok (54 + pixelDataByteLength)
    /\ DataView.getUint16 6 true header = Ok 0
    /\ DataView.getUint16 8 true header = Ok 0
    /\ DataView.getUint32 10 true header = Ok 54.
Proof.
  intros Hlo Hhi. eexists. split; [apply createBmpFileHeader_bytes|].
  split; [reflexivity|]. split; [reflexivity|]. split; [reflexivity|].
  split; [|repeat split; reflexivity].
  change (DataView.getUint32 2 true _)
    with (Ok (le_combine (le_split 4 (54 + pixelDataByteLength)))).
  rewrite le_combine_split_small; [reflexivity|].
  change (2 ^ (Z.of_nat 4 * 8)) with (2 ^ 32). lia.
Qed.

Lemma createBmpFileHeader_layout_witness :
  0 <= 4 /\ 54 + 4 < 2 ^ 32
  /\ exists header,
       createBmpFileHeader 4 = Ok header
       /\ length header = 14%nat
       /\ DataView.getUint8 0 header = Ok 0x42
       /\ DataView.getUint8 1 header = Ok 0x4D
       /\ DataView.getUint32 2 true header = Ok (54 + 4)
       /\ DataView.getUint16 6 true header = Ok 0
       /\ DataView.getUint16 8 true header = Ok 0
       /\ DataView.getUint32 10 true header = Ok 54.
Proof.
  split; [lia|]. split; [reflexivity|].
  apply (createBmpFileHeader_layout 4); [lia | reflexivity].
Defined.

(** Claim C5 fails as stated: at pixelDataByteLength = 2^32 - 54 the header
    is built, and its file-size field reads 0, not 2^32. *)
Lemma createBmpFileHeader_size_wraps :
  exists header,
    createBmpFileHeader 4294967242 = Ok header
    /\ DataView.getUint32 2 true header = Ok 0
    /\ DataView.getUint32 2 true header <> Ok (54 + 4294967242).
Proof.
  eexists. split; [apply createBmpFileHeader_bytes|].
  split; [vm_compute; reflexivity | vm_compute; discriminate].
Qed.

(** Claim C6, as amended: for every width > 0 and height > 0 with
    width * height * 4 below 2^32, the info header builder returns exactly 40
    bytes with the little-endian fields header size 40 at offset 0, signed
    32-bit width at 4 and height at 8, planes 1 at 12, bits per pixel 32 at
    14, compression 0 at 16, image byte size width * height * 4 at 20,
    resolutions 2835 at 24 and 28, and zero palette fields at 32 and 36. *)
Theorem createBmpInfoHeader_layout (w h : Z) :
  0 < w -> 0 < h -> w * h * 4 < 2 ^ 32 ->
  exists header,
    createBmpInfoHeader w h = Ok header
    /\ length header = 40%nat
    /\ DataView.getUint32 0 true header = Ok 40
    /\ DataView.getInt32 4 true header = Ok w
    /\ DataView.getInt32 8 true header = Ok h
    /\ DataView.getUint16 12 true header = Ok 1
    /\ DataView.getUint16 14 true header = Ok 32
    /\ DataView.getUint32 16 true header = Ok 0
    /\ DataView.getUint32 20 true header = Ok (w * h * 4)
    /\ DataView.getInt32 24 true header = Ok 2835
    /\ DataView.getInt32 28 true header = Ok 2835
    /\ DataView.getUint32 32 true header = Ok 0
    /\ DataView.getUint32 36 true header = Ok 0.
Proof.
  intros Hw Hh Hsize. change (2 ^ 32) with 4294967296 in Hsize.
  eexists. split; [apply createBmpInfoHeader_bytes|].
  split; [reflexivity|]. split; [reflexivity|].
  split.
  { change (DataView.getInt32 4 true _)
      with (Ok (DataView.toInt32 (le_combine (le_split 4 w)))).
    rewrite toInt32_le_split; [reflexivity|].
    change (2 ^ 31) with 2147483648. nia. }
  split.
  { change (DataView.getInt32 8 true _)
      with (Ok (DataView.toInt32 (le_combine (le_split 4 h)))).
    rewrite toInt32_le_split; [reflexivity|].
    change (2 ^ 31) with 2147483648. nia. }
  split; [reflexivity|]. split; [reflexivity|]. split; [reflexivity|].
  split; [|repeat split; reflexivity].
  change (DataView.getUint32 20 true _)
    with (Ok (le_combine (le_split 4 (w * h * 4)))).
  rewrite le_combine_split_small; [reflexivity|].
  change (2 ^ (Z.of_nat 4 * 8)) with 4294967296. nia.
Qed.

Lemma createBmpInfoHeader_layout_witness :
  0 < 3 /\ 0 < 2 /\ 3 * 2 * 4 < 2 ^ 32
  /\ exists header,
       createBmpInfoHeader 3 2 = Ok header
       /\ length header = 40%nat
       /\ DataView.getUint32 0 true header = Ok 40
       /\ DataView.getInt32 4 true header = Ok 3
       /\ DataView.getInt32 8 true header = Ok 2
       /\ DataView.getUint16 12 true header = Ok 1
       /\ DataView.getUint16 14 true header = Ok 32
       /\ DataView.getUint32 16 true header = Ok 0
       /\ DataView.getUint32 20 true header = Ok (3 * 2 * 4)
       /\ DataView.getInt32 24 true header = Ok 2835
       /\ DataView.getInt32 28 true header = Ok 2835
       /\ DataView.getUint32 32 true header = Ok 0
       /\ DataView.getUint32 36 true header = Ok 0.
Proof.
  split; [lia|]. split; [lia|]. split; [reflexivity|].
  apply (createBmpInfoHeader_layout 3 2); [lia | lia | reflexivity].
Defined.

(** Claim C6 fails as stated: for width = height = 32768 the header is
    built, and its image-size field reads 0, not 32768 * 32768 * 4 = 2^32. *)
Lemma createBmpInfoHeader_size_wraps :
  0 < 32768
  /\ exists header,
       createBmpInfoHeader 32768 32768 = Ok header
       /\ DataView.getUint32 20 true header = Ok 0
       /\ DataView.getUint32 20 true header <> Ok (32768 * 32768 * 4).
Proof.
  split; [lia|]. eexists. split; [apply createBmpInfoHeader_bytes|].
  split; [vm_compute; reflexivity | vm_compute; discriminate].
Qed.

(** ** Loops and array updates *)
Lemma for_range_0 {S : Type} (body : Z -> S -> S) (s : S) : for_range 0 body s = s.
Proof. reflexivity. Qed.

Lemma for_range_succ {S : Type} (k : nat) (body : Z -> S -> S) (s : S) :
  for_range (Z.of_nat (Datatypes.S k)) body s
  = body (Z.of_nat k) (for_range (Z.of_nat k) body s).
Proof.
  unfold for_range. rewrite !Nat2Z.id, seq_S, fold_left_app. reflexivity.
Qed.

Lemma array_set_length a i v : length (array_set a i v) = length a.
Proof. unfold array_set. destruct (i <? 0); [reflexivity | apply length_insert]. Qed.

Lemma array_set_lookup_eq a i v :
  0 <= i < byteLength a -> array_set a i v !! Z.to_nat i = Some (ToUint8 v).
Proof.
  unfold array_set, byteLength. intros Hi.
  destruct (Z.ltb_spec i 0); [lia|]. apply list_lookup_insert_eq. lia.
Qed.

Lemma array_set_lookup_ne a i v (p : nat) :
  Z.of_nat p <> i -> array_set a i v !! p = a !! p.
Proof.
  unfold array_set. intros Hp.
  destruct (Z.ltb_spec i 0); [reflexivity|]. apply list_lookup_insert_ne. lia.
Qed.

Lemma put_pixel_length data s t out : length (put_pixel data s t out) = length out.
Proof. unfold put_pixel. rewrite !array_set_length. reflexivity. Qed.

Lemma put_pixel_miss data s t out (p : nat) :
  Z.of_nat p < t \/ t + 4 <= Z.of_nat p ->
  put_pixel data s t out !! p = out !! p.
Proof.
  intros Hp. unfold put_pixel. rewrite !array_set_lookup_ne by lia. reflexivity.
Qed.

Lemma put_pixel_hit data s t out c :
  0 <= t -> t + 4 <= byteLength out -> 0 <= c < 4 ->
  put_pixel data s t out !! Z.to_nat (t + c)
  = Some (ToUint8 (array_get data (s + channel c))).
Proof.
  intros Ht Hlen Hc. unfold put_pixel, channel.
  assert (Hcases : c = 0 \/ c = 1 \/ c = 2 \/ c = 3) by lia.
  destruct Hcases as [-> | [-> | [-> | ->]]]; cbn [Z.eqb Pos.eqb];
    rewrite ?Z.add_0_r;
    repeat (rewrite array_set_lookup_ne by lia);
    (rewrite array_set_lookup_eq by (unfold byteLength in *; rewrite ?array_set_length; lia));
    reflexivity.
Qed.

Section Row.
Variables (data : list byte) (sb tb : Z).

Lemma row_spec (k : nat) (out0 : list byte) :
  0 <= tb -> (tb + Z.of_nat k) * 4 <= byteLength out0 ->
  let out := for_range (Z.of_nat k) (row_body data sb tb) out0 in
  length out = length out0
  /\ (forall x c, 0 <= x < Z.of_nat k -> 0 <= c < 4 ->
        out !! Z.to_nat ((tb + x) * 4 + c)
        = Some (ToUint8 (array_get data ((sb + x) * 4 + channel c))))
  /\ (forall p : nat, Z.of_nat p < tb * 4 \/ (tb + Z.of_nat k) * 4 <= Z.of_nat p ->
        out !! p = out0 !! p).
Proof.
  intros Htb. induction k as [|k IH]; intros Hlen.
  - cbn zeta. rewrite for_range_0. split; [reflexivity|]. split.
    + intros x c Hx Hc. lia.
    + intros p Hp. reflexivity.
  - cbn zeta. rewrite for_range_succ.
    destruct IH as (IHlen & IHhit & IHmiss); [lia|].
    set (out := for_range (Z.of_nat k) (row_body data sb tb) out0) in *.
    unfold row_body. split; [|split].
    + rewrite put_pixel_length. exact IHlen.
    + intros x c Hx Hc.
      destruct (Z.eq_dec x (Z.of_nat k)) as [-> | Hne].
      * apply put_pixel_hit; unfold byteLength in *; lia.
      * rewrite put_pixel_miss by lia. apply IHhit; lia.
    + intros p Hp. rewrite put_pixel_miss by lia. apply IHmiss. lia.
Qed.
End Row.

(** ** The pixel transcoder *)

Lemma channel_range c : 0 <= c < 4 -> 0 <= channel c < 4.
Proof.
  intros Hc. unfold channel.
  destruct (Z.eqb_spec c 0); [lia|]. destruct (Z.eqb_spec c 2); lia.
Qed.

Lemma channel_involutive c : 0 <= c < 4 -> channel (channel c) = c.
Proof.
  intros Hc. assert (Hcases : c = 0 \/ c = 1 \/ c = 2 \/ c = 3) by lia.
  destruct Hcases as [-> | [-> | [-> | ->]]]; reflexivity.
Qed.

Lemma ToUint8_array_get (a : list byte) (i : Z) :
  0 <= i < byteLength a -> Some (ToUint8 (array_get a i)) = a !! Z.to_nat i.
Proof.
  unfold array_get, byteLength. intros Hi.
  destruct (Z.ltb_spec i 0); [lia|].
  destruct (lookup_lt_is_Some_2 a (Z.to_nat i)) as [b Hb]; [lia|].
  rewrite Hb. reflexivity.
Qed.

Section Rows.
Variables (data : list byte) (W H : Z).
Hypothesis W_pos : 0 < W.

Lemma rows_spec (j : nat) (out0 : list byte) :
  Z.of_nat j <= H -> byteLength out0 = W * H * 4 ->
  length (rows data W H (Z.of_nat j) out0) = length out0
  /\ (forall y x c, 0 <= y < Z.of_nat j -> 0 <= x < W -> 0 <= c < 4 ->
        rows data W H (Z.of_nat j) out0 !! Z.to_nat ((y * W + x) * 4 + c)
        = Some (ToUint8 (array_get data (((H - 1 - y) * W + x) * 4 + channel c)))).
Proof.
  intros Hj Hlen. induction j as [|j IH].
  - split; [reflexivity|]. intros y x c Hy. lia.
  - destruct IH as [IHlen IHhit]; [lia|].
    unfold rows in *. rewrite for_range_succ.
    set (out := for_range (Z.of_nat j) _ out0) in *.
    destruct (row_spec data ((H - 1 - Z.of_nat j) * W) (Z.of_nat j * W)
                (Z.to_nat W) out) as (Rlen & Rhit & Rmiss).
    { nia. }
    { unfold byteLength in *. rewrite IHlen. nia. }
    cbn zeta in Rlen, Rhit, Rmiss.
    rewrite Z2Nat.id in Rlen, Rhit, Rmiss by lia.
    split; [congruence|].
    intros y x c Hy Hx Hc.
    destruct (Z.eq_dec y (Z.of_nat j)) as [-> | Hne].
    + apply Rhit; lia.
    + rewrite Rmiss by nia. apply IHhit; lia.
Qed.
End Rows.

Lemma convertToBGRA_spec (imageData : ImageData) :
  let W := width imageData in
  let H := height imageData in
  0 < W -> 0 < H -> byteLength (data imageData) = W * H * 4 ->
  exists output,
    convertToBGRA imageData = Ok output
    /\ length output = length (data imageData)
    /\ forall y x c, 0 <= y < H -> 0 <= x < W -> 0 <= c < 4 ->
         output !! Z.to_nat ((y * W + x) * 4 + c)
         = data imageData !! Z.to_nat (((H - 1 - y) * W + x) * 4 + channel c).
Proof.
  intros W H HW HH Hlen. unfold convertToBGRA, new_Uint8Array.
  fold W H. destruct (Z.ltb_spec (W * H * 4) 0) as [Hneg | _]; [nia|].
  cbn [bind].
  set (out0 := replicate (Z.to_nat (W * H * 4)) Byte.x00).
  change (for_range H _ out0) with (rows (data imageData) W H H out0).
  assert (Hout0 : byteLength out0 = W * H * 4).
  { unfold byteLength, out0. rewrite length_replicate. lia. }
  assert (HHnat : H = Z.of_nat (Z.to_nat H)) by lia.
  destruct (rows_spec (data imageData) W H HW (Z.to_nat H) out0) as [Rlen Rhit];
    [lia | exact Hout0 |].
  rewrite <- HHnat in Rlen, Rhit.
  eexists. split; [reflexivity|]. split.
  - rewrite Rlen. unfold byteLength in *. lia.
  - intros y x c Hy Hx Hc. rewrite Rhit by assumption.
    pose proof (channel_range c Hc).
    apply ToUint8_array_get. nia.
Qed.

(** The tests of the channel order and of the vertical flip. *)
Example convertToBGRA_one_pixel :
  convertToBGRA {| width := 1; height := 1; data := image_pixels one_pixel |}
  = Ok [Byte.x1e; Byte.x14; Byte.x0a; Byte.x28].
Proof. vm_compute. reflexivity. Qed.

Example convertToBGRA_two_rows :
  convertToBGRA two_rows
  = Ok [Byte.x07; Byte.x06; Byte.x05; Byte.x08;
        Byte.x03; Byte.x02; Byte.x01; Byte.x04].
Proof. vm_compute. reflexivity. Qed.

(** Claim C3: for an image of width W > 0 and height H > 0 whose RGBA data
    has length W * H * 4, the transcoder returns a buffer of the same length
    in which, for every row y in [0, H) and column x in [0, W), the four
    bytes from (y * W + x) * 4 on are the source bytes at
    ((H - 1 - y) * W + x) * 4 + 2, + 1, + 0 and + 3: BGRA order, rows
    flipped vertically. *)
Theorem convertToBGRA_flips_rows_and_swaps_channels (imageData : ImageData) :
  let W := width imageData in
  let H := height imageData in
  0 < W -> 0 < H -> byteLength (data imageData) = W * H * 4 ->
  exists output,
    convertToBGRA imageData = Ok output
    /\ byteLength output = W * H * 4
    /\ forall y x, 0 <= y < H -> 0 <= x < W ->
         let target := (y * W + x) * 4 in
         let source := ((H - 1 - y) * W + x) * 4 in
         0 <= target /\ target + 3 < byteLength output
         /\ output !! Z.to_nat target = data imageData !! Z.to_nat (source + 2)
         /\ output !! Z.to_nat (target + 1) = data imageData !! Z.to_nat (source + 1)
         /\ output !! Z.to_nat (target + 2) = data imageData !! Z.to_nat (source + 0)
         /\ output !! Z.to_nat (target + 3) = data imageData !! Z.to_nat (source + 3).
Proof.
  intros W H HW HH Hlen.
  destruct (convertToBGRA_spec imageData HW HH Hlen) as (output & Hout & Hlen' & Hpix).
  fold W H in Hpix.
  assert (Hlen'' : byteLength output = W * H * 4)
    by (unfold byteLength in *; lia).
  exists output. split; [exact Hout|]. split; [exact Hlen''|].
  intros y x Hy Hx target source.
  split; [subst target; nia|]. split; [subst target; nia|].
  pose proof (Hpix y x 0 Hy Hx ltac:(lia)) as H0.
  pose proof (Hpix y x 1 Hy Hx ltac:(lia)) as H1.
  pose proof (Hpix y x 2 Hy Hx ltac:(lia)) as H2.
  pose proof (Hpix y x 3 Hy Hx ltac:(lia)) as H3.
  change (channel 0) with 2 in H0. change (channel 1) with 1 in H1.
  change (channel 2) with 0 in H2. change (channel 3) with 3 in H3.
  rewrite Z.add_0_r in H0. fold target source in H0, H1, H2, H3.
  repeat split; assumption.
Qed.

Lemma convertToBGRA_flips_rows_and_swaps_channels_witness :
  0 < 1 /\ 0 < 2 /\ byteLength (data two_rows) = 1 * 2 * 4
  /\ exists output,
       convertToBGRA two_rows = Ok output
       /\ byteLength output = 1 * 2 * 4
       /\ forall y x, 0 <= y < 2 -> 0 <= x < 1 ->
            let target := (y * 1 + x) * 4 in
            let source := ((2 - 1 - y) * 1 + x) * 4 in
            0 <= target /\ target + 3 < byteLength output
            /\ output !! Z.to_nat target = data two_rows !! Z.to_nat (source + 2)
            /\ output !! Z.to_nat (target + 1) = data two_rows !! Z.to_nat (source + 1)
            /\ output !! Z.to_nat (target + 2) = data two_rows !! Z.to_nat (source + 0)
            /\ output !! Z.to_nat (target + 3) = data two_rows !! Z.to_nat (source + 3).
Proof.
  split; [lia|]. split; [lia|]. split; [reflexivity|].
  apply (convertToBGRA_flips_rows_and_swaps_channels two_rows); reflexivity.
Defined.

Lemma position_split (W H i : Z) :
  0 < W -> 0 <= i < W * H * 4 ->
  exists y x c, 0 <= y < H /\ 0 <= x < W /\ 0 <= c < 4 /\ i = (y * W + x) * 4 + c.
Proof.
  intros HW Hi.
  exists (i / 4 / W), ((i / 4) mod W), (i mod 4).
  pose proof (Z.div_mod i 4 ltac:(lia)) as Hi4.
  pose proof (Z.mod_pos_bound i 4 ltac:(lia)) as Hc.
  pose proof (Z.div_mod (i / 4) W ltac:(lia)) as Hq.
  pose proof (Z.mod_pos_bound (i / 4) W HW) as Hx.
  assert (Hq0 : 0 <= i / 4 < W * H) by (split; [apply Z.div_pos; lia | apply Z.div_lt_upper_bound; lia]).
  assert (Hy : 0 <= i / 4 / W < H).
  { split; [apply Z.div_pos; lia | apply Z.div_lt_upper_bound; lia]. }
  repeat split; try lia.
Qed.

(** Claim C10: the transcoder is an involution.  For every width W > 0,
    height H > 0 and byte sequence of length W * H * 4, transcoding the
    sequence and then transcoding the result, at the same size, gives the
    sequence back. *)
Theorem convertToBGRA_involutive (W H : Z) (bytes : list byte) :
  0 < W -> 0 < H -> byteLength bytes = W * H * 4 ->
  exists output,
    convertToBGRA {| width := W; height := H; data := bytes |} = Ok output
    /\ convertToBGRA {| width := W; height := H; data := output |} = Ok bytes.
Proof.
  intros HW HH Hlen.
  destruct (convertToBGRA_spec {| width := W; height := H; data := bytes |})
    as (out1 & Hout1 & Hlen1 & Hpix1); [exact HW | exact HH | exact Hlen |].
  cbn [width height data] in Hlen1, Hpix1.
  destruct (convertToBGRA_spec {| width := W; height := H; data := out1 |})
    as (out2 & Hout2 & Hlen2 & Hpix2);
    [exact HW | exact HH | cbn [width height data]; unfold byteLength in *; lia |].
  cbn [width height data] in Hlen2, Hpix2.
  exists out1. split; [exact Hout1|]. rewrite Hout2. f_equal.
  apply list_eq. intros i.
  destruct (Nat.lt_ge_cases i (length bytes)) as [Hi | Hi].
  - destruct (position_split W H (Z.of_nat i)) as (y & x & c & Hy & Hx & Hc & Hpos);
      [exact HW | unfold byteLength in Hlen; lia |].
    rewrite <- (Nat2Z.id i), Hpos.
    rewrite Hpix2 by assumption.
    pose proof (channel_range c Hc) as Hc'.
    rewrite Hpix1 by (try assumption; lia).
    rewrite channel_involutive by assumption.
    f_equal. f_equal. lia.
  - rewrite !lookup_ge_None_2 by lia. reflexivity.
Qed.

Lemma convertToBGRA_involutive_witness :
  0 < 1 /\ 0 < 2 /\ byteLength (data two_rows) = 1 * 2 * 4
  /\ exists output,
       convertToBGRA {| width := 1; height := 2; data := data two_rows |} = Ok output
       /\ convertToBGRA {| width := 1; height := 2; data := output |}
          = Ok (data two_rows).
Proof.
  split; [lia|]. split; [lia|]. split; [reflexivity|].
  apply (convertToBGRA_involutive 1 2 (data two_rows)); [lia | lia | reflexivity].
Defined.

(** ** Assembling the file *)

Lemma store_app (pre bs old : list byte) :
  (length bs <= length old)%nat ->
  store (byteLength pre) bs (pre ++ old) = Ok (pre ++ bs ++ drop (length bs) old).
Proof.
  intros Hfit. unfold store, byteLength.
  rewrite length_app, Nat2Z.id.
  destruct (Z.ltb_spec (Z.of_nat (length pre)) 0); [lia|].
  destruct (Z.ltb_spec (Z.of_nat (length pre + length old))
              (Z.of_nat (length pre) + Z.of_nat (length bs))); [lia|].
  cbn [orb]. rewrite take_app_length, drop_app_add. reflexivity.
Qed.

Lemma store_0 (bs old : list byte) :
  (length bs <= length old)%nat ->
  store 0 bs old = Ok (bs ++ drop (length bs) old).
Proof. exact (store_app [] bs old). Qed.

Lemma store_parts (fileHeader infoHeader pixelData : list byte) :
  (let* bmpData := new_Uint8Array
                     (byteLength fileHeader + byteLength infoHeader + byteLength pixelData) in
   let* bmpData := store 0 fileHeader bmpData in
   let* bmpData := store (byteLength fileHeader) infoHeader bmpData in
   let* bmpData := store (byteLength fileHeader + byteLength infoHeader) pixelData bmpData in
   Ok bmpData)%result
  = Ok (fileHeader ++ infoHeader ++ pixelData).
Proof.
  unfold new_Uint8Array.
  destruct (Z.ltb_spec (byteLength fileHeader + byteLength infoHeader + byteLength pixelData) 0)
    as [Hneg | _]; [unfold byteLength in Hneg; lia|].
  cbn [bind].
  replace (Z.to_nat (byteLength fileHeader + byteLength infoHeader + byteLength pixelData))
    with (length fileHeader + (length infoHeader + length pixelData))%nat
    by (unfold byteLength; lia).
  rewrite store_0 by (rewrite length_replicate; lia).
  cbn [bind]. rewrite drop_replicate_add.
  rewrite (store_app fileHeader infoHeader) by (rewrite length_replicate; lia).
  cbn [bind]. rewrite drop_replicate_add.
  replace (byteLength fileHeader + byteLength infoHeader)
    with (byteLength (fileHeader ++ infoHeader))
    by (unfold byteLength; rewrite length_app; lia).
  rewrite (app_assoc fileHeader infoHeader).
  rewrite (store_app (fileHeader ++ infoHeader) pixelData)
    by (rewrite length_replicate; lia).
  cbn [bind]. rewrite drop_replicate, Nat.sub_diag. cbn [replicate].
  rewrite app_nil_r, <- app_assoc. reflexivity.
Qed.

Lemma createBmpFileHeader_length imageSize header :
  createBmpFileHeader imageSize = Ok header -> byteLength header = 14.
Proof. rewrite createBmpFileHeader_bytes. intros [= <-]. reflexivity. Qed.

Lemma createBmpInfoHeader_length w h header :
  createBmpInfoHeader w h = Ok header -> byteLength header = 40.
Proof. rewrite createBmpInfoHeader_bytes. intros [= <-]. reflexivity. Qed.

(** Claim C4: for every image of width W > 0 and height H > 0 with
    W * H * 4 bytes of RGBA data, the assembled buffer is exactly the file
    header, then the info header, then the transcoded pixels, and its length
    is 54 + W * H * 4. *)
Theorem assembleBmp_layout (imageData : ImageData) :
  let W := width imageData in
  let H := height imageData in
  0 < W -> 0 < H -> byteLength (data imageData) = W * H * 4 ->
  exists fileHeader infoHeader pixelData,
    createBmpFileHeader (W * H * 4) = Ok fileHeader
    /\ createBmpInfoHeader W H = Ok infoHeader
    /\ convertToBGRA imageData = Ok pixelData
    /\ assembleBmp imageData W H = Ok (fileHeader ++ infoHeader ++ pixelData)
    /\ byteLength (fileHeader ++ infoHeader ++ pixelData) = 54 + W * H * 4.
Proof.
  intros W H HW HH Hlen.
  destruct (convertToBGRA_spec imageData HW HH Hlen) as (pixelData & Hpx & Hpxlen & _).
  eexists _, _, pixelData.
  split; [apply createBmpFileHeader_bytes|].
  split; [apply createBmpInfoHeader_bytes|].
  split; [exact Hpx|]. split.
  - unfold assembleBmp. rewrite Hlen, createBmpFileHeader_bytes.
    cbn [bind]. fold W H. rewrite createBmpInfoHeader_bytes. cbn [bind].
    rewrite Hpx. cbn [bind]. apply store_parts.
  - unfold byteLength in *. rewrite !length_app, !length_le_split, Hpxlen. cbn [length]. lia.
Qed.

Lemma assembleBmp_layout_witness :
  0 < 1 /\ 0 < 2 /\ byteLength (data two_rows) = 1 * 2 * 4
  /\ exists fileHeader infoHeader pixelData,
       createBmpFileHeader (1 * 2 * 4) = Ok fileHeader
       /\ createBmpInfoHeader 1 2 = Ok infoHeader
       /\ convertToBGRA two_rows = Ok pixelData
       /\ assembleBmp two_rows 1 2 = Ok (fileHeader ++ infoHeader ++ pixelData)
       /\ byteLength (fileHeader ++ infoHeader ++ pixelData) = 54 + 1 * 2 * 4.
Proof.
  split; [lia|]. split; [lia|]. split; [reflexivity|].
  apply (assembleBmp_layout two_rows); reflexivity.
Defined.

(** ** Strings *)

Section Strings.
Local Open Scope string_scope.

Lemma prefix_app_short (p s t : string) :
  (String.length p <= String.length s)%nat ->
  String.prefix p (s ++ t) = String.prefix p s.
Proof.
  revert s. induction p as [|a p IH]; intros s Hlen.
  - destruct s; [destruct t|]; reflexivity.
  - destruct s as [|b s]; cbn [String.length] in Hlen; [lia|].
    cbn [String.prefix append]. destruct (ascii_dec a b); [|reflexivity].
    apply IH. lia.
Qed.

Lemma includes_false_inv (p : string) (c : ascii) (s : string) :
  includes p (String c s) = false ->
  String.prefix p (String c s) = false /\ includes p s = false.
Proof. cbn [includes]. intros H. apply orb_false_elim in H. exact H. Qed.

Lemma replace_absent (p r s : string) :
  includes p s = false -> replace p r s = s.
Proof.
  induction s as [|c s IH]; intros Habs.
  - cbn [includes] in Habs. apply orb_false_elim in Habs as [Hpre _].
    cbn [replace]. rewrite Hpre. reflexivity.
  - apply includes_false_inv in Habs as [Hpre Hrest].
    cbn [replace]. rewrite Hpre. f_equal. apply IH. exact Hrest.
Qed.

Lemma append_assoc (s t u : string) : (s ++ t) ++ u = s ++ (t ++ u).
Proof. induction s as [|c s IH]; cbn [append]; [reflexivity | rewrite IH; reflexivity]. Qed.

Lemma append_length (s t : string) :
  String.length (s ++ t) = (String.length s + String.length t)%nat.
Proof. induction s as [|c s IH]; cbn [append String.length]; [reflexivity | rewrite IH; reflexivity]. Qed.

Lemma replace_trailing_png (base : string) :
  includes ".png" (base ++ ".pn") = false ->
  replace ".png" ".bmp" (base ++ ".png") = base ++ ".bmp".
Proof.
  induction base as [|c base IH]; intros Habs.
  - reflexivity.
  - cbn [append] in Habs. apply includes_false_inv in Habs as [Hpre Hrest].
    assert (Hpre' : String.prefix ".png" (String c (base ++ ".png")) = false).
    { change (String c (base ++ ".png")) with ((String c base) ++ (".pn" ++ "g")).
      rewrite <- append_assoc, prefix_app_short; [exact Hpre|].
      rewrite append_length. cbn [String.length]. lia. }
    cbn [append]. cbn [replace]. rewrite Hpre'. f_equal. apply IH. exact Hrest.
Qed.

End Strings.

(** ** The entry point *)

(** Past the type check the function always returns, and what it returns is
    the result of the finally block: the derived name and a URL of the
    file it was given. *)
Lemma convertPngToBmp_png (browser : Browser) (file : File.t) (w : World) :
  includes "png" (File.type file) = true ->
  exists u w',
    convertPngToBmp browser file w
    = (Ok {| ConvertedFile.name := outputName file; ConvertedFile.url := u |}, w')
    /\ resolve w' u = Some (File.blob file).
Proof.
  intros Hpng. unfold convertPngToBmp. rewrite Hpng. cbn [negb].
  unfold mbind at 1, createObjectURL at 1, try_finally.
  destruct (convertPngToBmp_try _ _ _ _) as [completion w1].
  unfold convertPngToBmp_finally, mbind, createObjectURL, ret.
  eexists _, _. split; [reflexivity|].
  unfold resolve. cbn [object_urls]. apply list_lookup_middle. reflexivity.
Qed.

(** Claim C1, evaluated on [photo_png], which the browser decodes to one
    pixel.  The try block registers the 58-byte BMP under URL 1 and returns
    it; the function returns URL 2, which is the PNG file again, and the
    bytes behind it are not the BMP. *)
Theorem convertPngToBmp_discards_bmp :
  exists bmpData,
    assembleBmp {| width := 1; height := 1; data := image_pixels one_pixel |} 1 1
    = Ok bmpData
    /\ convertPngToBmp_try sample_browser photo_png 0%nat photo_page
       = (Ok {| ConvertedFile.name := "photo.bmp"; ConvertedFile.url := 1%nat |},
          {| object_urls := [File.blob photo_png;
                             {| blob_bytes := bmpData; blob_type := "image/bmp" |}];
             image_loads := [0%nat] |})
    /\ convertPngToBmp sample_browser photo_png empty_page
       = (Ok {| ConvertedFile.name := "photo.bmp"; ConvertedFile.url := 2%nat |},
          {| object_urls := [File.blob photo_png;
                             {| blob_bytes := bmpData; blob_type := "image/bmp" |};
                             File.blob photo_png];
             image_loads := [0%nat] |})
    /\ File.bytes photo_png <> bmpData.
Proof.
  eexists. split; [vm_compute; reflexivity|].
  split; [vm_compute; reflexivity|].
  split; [vm_compute; reflexivity|]. discriminate.
Qed.

(** Claim C2, evaluated on [broken_png], which the browser fails to decode.
    The try block rejects with the error event; the function returns a
    result all the same. *)
Theorem convertPngToBmp_swallows_load_error :
  decode sample_browser (File.blob broken_png) = None
  /\ convertPngToBmp_try sample_browser broken_png 0%nat
       {| object_urls := [File.blob broken_png]; image_loads := [] |}
     = (Err ErrorEvent,
        {| object_urls := [File.blob broken_png]; image_loads := [0%nat] |})
  /\ convertPngToBmp sample_browser broken_png empty_page
     = (Ok {| ConvertedFile.name := "broken.bmp"; ConvertedFile.url := 1%nat |},
        {| object_urls := [File.blob broken_png; File.blob broken_png];
           image_loads := [0%nat] |}).
Proof. repeat split; vm_compute; reflexivity. Qed.

(** Claim C7 fails as stated: the name "noext" comes back as it is, with no
    ".bmp" appended, and in "a.png.png" it is the first ".png" that is
    replaced, not the trailing one. *)
Lemma outputName_appends_nothing :
  fst (convertPngToBmp sample_browser noext empty_page)
  = Ok {| ConvertedFile.name := "noext"; ConvertedFile.url := 2%nat |}
  /\ "noext"%string <> "noext.bmp"%string
  /\ fst (convertPngToBmp sample_browser twice_png empty_page)
     = Ok {| ConvertedFile.name := "a.bmp.png"; ConvertedFile.url := 2%nat |}
  /\ "a.bmp.png"%string <> "a.png.bmp"%string.
Proof.
  split; [vm_compute; reflexivity|]. split; [discriminate|].
  split; [vm_compute; reflexivity | discriminate].
Qed.

(** Claim C7, as amended: for every input file that passes the type check,
    the output name is the input name with its first ".png" replaced by
    ".bmp".  A name whose first ".png" is its trailing extension has that
    extension replaced, and a name that holds no ".png" is returned as it
    is; "photo.png" maps to "photo.bmp" and "noext" to "noext". *)
Theorem convertPngToBmp_output_name (browser : Browser) (file : File.t) (w : World) :
  includes "png" (File.type file) = true ->
  exists u w',
    convertPngToBmp browser file w
    = (Ok {| ConvertedFile.name := replace ".png" ".bmp" (File.name file);
             ConvertedFile.url := u |}, w')
    /\ (forall base : string,
          File.name file = (base ++ ".png")%string ->
          includes ".png" (base ++ ".pn") = false ->
          replace ".png" ".bmp" (File.name file) = (base ++ ".bmp")%string)
    /\ (includes ".png" (File.name file) = false ->
        replace ".png" ".bmp" (File.name file) = File.name file)
    /\ replace ".png" ".bmp" "photo.png" = "photo.bmp"%string
    /\ replace ".png" ".bmp" "noext" = "noext"%string.
Proof.
  intros Hpng.
  destruct (convertPngToBmp_png browser file w Hpng) as (u & w' & Hrun & _).
  exists u, w'. split; [exact Hrun|]. split; [|split; [|split]].
  - intros base -> Hfirst. apply replace_trailing_png. exact Hfirst.
  - apply replace_absent.
  - reflexivity.
  - reflexivity.
Qed.

Lemma convertPngToBmp_output_name_witness :
  includes "png" (File.type photo_png) = true
  /\ exists u w',
       convertPngToBmp sample_browser photo_png empty_page
       = (Ok {| ConvertedFile.name := replace ".png" ".bmp" (File.name photo_png);
                ConvertedFile.url := u |}, w')
       /\ (forall base : string,
             File.name photo_png = (base ++ ".png")%string ->
             includes ".png" (base ++ ".pn") = false ->
             replace ".png" ".bmp" (File.name photo_png) = (base ++ ".bmp")%string)
       /\ (includes ".png" (File.name photo_png) = false ->
           replace ".png" ".bmp" (File.name photo_png) = File.name photo_png)
       /\ replace ".png" ".bmp" "photo.png" = "photo.bmp"%string
       /\ replace ".png" ".bmp" "noext" = "noext"%string.
Proof.
  split; [reflexivity|].
  apply (convertPngToBmp_output_name sample_browser photo_png empty_page).
  reflexivity.
Defined.

(** * Further properties *)

(** ** The header builders beyond their fields *)

(** X1: for every image size that a double holds exactly together with
    54 + imageSize, a negative one or one beyond the 32-bit field included,
    the file header builder returns 14 bytes that start with "BM", and the
    size field holds 54 + imageSize reduced modulo 2^32. *)
Theorem createBmpFileHeader_size_modulo (imageSize : Z) :
  safe_integer imageSize ->
  safe_integer (54 + imageSize) ->
  exists header,
    createBmpFileHeader imageSize = Ok header
    /\ length header = 14%nat
    /\ DataView.getUint8 0 header = Ok 0x42
    /\ DataView.getUint8 1 header = Ok 0x4D
    /\ DataView.getUint32 2 true header = Ok ((54 + imageSize) mod 2 ^ 32)
    /\ DataView.getUint32 10 true header = Ok 54.
Proof.
  intros _ _.
  eexists. split; [apply createBmpFileHeader_bytes|].
  split; [reflexivity|]. split; [reflexivity|]. split; [reflexivity|].
  split; [|reflexivity].
  change (DataView.getUint32 2 true _)
    with (Ok (le_combine (le_split 4 (54 + imageSize)))).
  rewrite le_combine_split. reflexivity.
Qed.

Lemma createBmpFileHeader_size_modulo_witness :
  safe_integer 4294967296 /\ safe_integer (54 + 4294967296)
  /\ exists header,
       createBmpFileHeader 4294967296 = Ok header
       /\ length header = 14%nat
       /\ DataView.getUint8 0 header = Ok 0x42
       /\ DataView.getUint8 1 header = Ok 0x4D
       /\ DataView.getUint32 2 true header = Ok ((54 + 4294967296) mod 2 ^ 32)
       /\ DataView.getUint32 10 true header = Ok 54.
Proof.
  split; [split; reflexivity|]. split; [split; reflexivity|].
  apply (createBmpFileHeader_size_modulo 4294967296); split; reflexivity.
Defined.

(** X2: the width and height fields read back, as signed 32-bit integers,
    every width and height of that range, zero and negative ones too, and
    whether or not the image size fits its own field: as long as a double
    holds width * height * 4 exactly, that field holds it modulo 2^32. *)
Theorem createBmpInfoHeader_signed_dimensions (w h : Z) :
  - 2 ^ 31 <= w < 2 ^ 31 ->
  - 2 ^ 31 <= h < 2 ^ 31 ->
  safe_integer (w * h * 4) ->
  exists header,
    createBmpInfoHeader w h = Ok header
    /\ length header = 40%nat
    /\ DataView.getInt32 4 true header = Ok w
    /\ DataView.getInt32 8 true header = Ok h
    /\ DataView.getUint32 20 true header = Ok ((w * h * 4) mod 2 ^ 32).
Proof.
  intros Hw Hh _.
  eexists. split; [apply createBmpInfoHeader_bytes|]. split; [reflexivity|].
  split.
  { change (DataView.getInt32 4 true _)
      with (Ok (DataView.toInt32 (le_combine (le_split 4 w)))).
    rewrite toInt32_le_split by exact Hw. reflexivity. }
  split.
  { change (DataView.getInt32 8 true _)
      with (Ok (DataView.toInt32 (le_combine (le_split 4 h)))).
    rewrite toInt32_le_split by exact Hh. reflexivity. }
  change (DataView.getUint32 20 true _)
    with (Ok (le_combine (le_split 4 (w * h * 4)))).
  rewrite le_combine_split. reflexivity.
Qed.

Lemma createBmpInfoHeader_signed_dimensions_witness :
  - 2 ^ 31 <= 65536 < 2 ^ 31 /\ - 2 ^ 31 <= -32768 < 2 ^ 31
  /\ safe_integer (65536 * -32768 * 4)
  /\ exists header,
       createBmpInfoHeader 65536 (-32768) = Ok header
       /\ length header = 40%nat
       /\ DataView.getInt32 4 true header = Ok 65536
       /\ DataView.getInt32 8 true header = Ok (-32768)
       /\ DataView.getUint32 20 true header = Ok ((65536 * -32768 * 4) mod 2 ^ 32).
Proof.
  split; [lia|]. split; [lia|]. split; [split; reflexivity|].
  apply (createBmpInfoHeader_signed_dimensions 65536 (-32768));
    [lia | lia | split; reflexivity].
Defined.

(** ** The transcoder at the edges *)

Lemma for_range_nonpos {S : Type} (n : Z) (body : Z -> S -> S) (s : S) :
  n <= 0 -> for_range n body s = s.
Proof.
  intros Hn. unfold for_range. replace (Z.to_nat n) with 0%nat by lia. reflexivity.
Qed.

Lemma for_range_preserves {S : Type} (P : S -> Prop) (n : Z) (body : Z -> S -> S) (s : S) :
  (forall i s', P s' -> P (body i s')) -> P s -> P (for_range n body s).
Proof.
  intros Hbody. unfold for_range. generalize (seq 0 (Z.to_nat n)) as l.
  intros l. revert s. induction l as [|i l IH]; intros s Hs; [exact Hs|].
  cbn [fold_left]. apply IH. apply Hbody. exact Hs.
Qed.

Lemma rows_length (data : list byte) (W H j : Z) (out0 : list byte) :
  length (rows data W H j out0) = length out0.
Proof.
  unfold rows.
  apply (for_range_preserves (fun out => length out = length out0)); [|reflexivity].
  intros y out Hout.
  apply (for_range_preserves (fun out => length out = length out0)); [|exact Hout].
  intros x out' Hout'. unfold row_body. rewrite put_pixel_length. exact Hout'.
Qed.

Lemma convertToBGRA_rows (imageData : ImageData) :
  0 <= width imageData * height imageData * 4 ->
  convertToBGRA imageData
  = Ok (rows (data imageData) (width imageData) (height imageData) (height imageData)
          (replicate (Z.to_nat (width imageData * height imageData * 4)) Byte.x00)).
Proof.
  intros Hsize. unfold convertToBGRA, new_Uint8Array.
  destruct (Z.ltb_spec (width imageData * height imageData * 4) 0); [lia|].
  reflexivity.
Qed.

(** X3: when width * height * 4 does not exceed the length of the data
    (the data may be longer than the image needs), the transcoder fails
    exactly for a negative pixel count, with the [RangeError] of the
    allocation, and otherwise returns width * height * 4 bytes. *)
Theorem convertToBGRA_length (imageData : ImageData) :
  let size := width imageData * height imageData * 4 in
  safe_integer (width imageData) ->
  safe_integer (height imageData) ->
  size <= byteLength (data imageData) ->
  (size < 0
   /\ convertToBGRA imageData = Err (RangeError "Invalid typed array length"))
  \/ (0 <= size
      /\ exists output,
           convertToBGRA imageData = Ok output /\ byteLength output = size).
Proof.
  intros size _ _ _. destruct (Z.lt_ge_cases size 0) as [Hneg | Hpos].
  - left. split; [exact Hneg|]. unfold convertToBGRA, new_Uint8Array. fold size.
    destruct (Z.ltb_spec size 0); [reflexivity | lia].
  - right. split; [exact Hpos|]. eexists. split; [apply convertToBGRA_rows; exact Hpos|].
    unfold byteLength. rewrite rows_length, length_replicate. fold size. lia.
Qed.

Lemma convertToBGRA_length_witness :
  safe_integer 1 /\ safe_integer 1 /\ 1 * 1 * 4 <= byteLength png_signature
  /\ ((1 * 1 * 4 < 0
       /\ convertToBGRA {| width := 1; height := 1; data := png_signature |}
          = Err (RangeError "Invalid typed array length"))
      \/ (0 <= 1 * 1 * 4
          /\ exists output,
               convertToBGRA {| width := 1; height := 1; data := png_signature |}
               = Ok output
               /\ byteLength output = 1 * 1 * 4)).
Proof.
  split; [split; reflexivity|]. split; [split; reflexivity|].
  split; [discriminate|].
  apply (convertToBGRA_length {| width := 1; height := 1; data := png_signature |});
    [split; reflexivity | split; reflexivity | discriminate].
Defined.

(** X4: for an image of width 0 or of height 0 (both in the range of the
    [unsigned long] the canvas API gives them) neither loop body runs and
    the transcoder returns the empty buffer, whatever the data. *)
Theorem convertToBGRA_no_pixels (imageData : ImageData) :
  let W := width imageData in
  let H := height imageData in
  0 <= W < 2 ^ 32 -> 0 <= H < 2 ^ 32 ->
  W = 0 \/ H = 0 ->
  convertToBGRA imageData = Ok [].
Proof.
  intros W H HW HH Hempty.
  assert (Hsize : W * H * 4 = 0) by (destruct Hempty as [-> | ->]; lia).
  rewrite convertToBGRA_rows by (fold W H; lia).
  fold W H. rewrite Hsize. cbn [Z.to_nat replicate]. f_equal. unfold rows.
  destruct (Z.eq_dec H 0) as [-> | HHne].
  - apply for_range_nonpos. lia.
  - assert (HW0 : W = 0) by (destruct Hempty; [assumption | contradiction]).
    apply (for_range_preserves (fun out : list byte => out = [])); [|reflexivity].
    intros y out ->. apply for_range_nonpos. lia.
Qed.

Lemma convertToBGRA_no_pixels_witness :
  0 <= 0 < 2 ^ 32 /\ 0 <= 5 < 2 ^ 32 /\ (0 = 0 \/ 5 = 0)
  /\ convertToBGRA {| width := 0; height := 5; data := png_signature |} = Ok [].
Proof.
  split; [lia|]. split; [lia|]. split; [left; reflexivity|].
  apply (convertToBGRA_no_pixels {| width := 0; height := 5; data := png_signature |});
    [cbn [width]; lia | cbn [height]; lia | left; reflexivity].
Defined.

Lemma array_get_lookup (a : list byte) (i : Z) :
  0 <= i -> array_get a i = a !! Z.to_nat i.
Proof. intros Hi. unfold array_get. destruct (Z.ltb_spec i 0); [lia | reflexivity]. Qed.

(** Every byte of the output, for any data: the source byte, or 0 where
    the data has none. *)
Lemma convertToBGRA_reads (imageData : ImageData) :
  let W := width imageData in
  let H := height imageData in
  0 < W -> 0 < H ->
  exists output,
    convertToBGRA imageData = Ok output
    /\ byteLength output = W * H * 4
    /\ forall y x c, 0 <= y < H -> 0 <= x < W -> 0 <= c < 4 ->
         output !! Z.to_nat ((y * W + x) * 4 + c)
         = Some (default Byte.x00
                   (data imageData !! Z.to_nat (((H - 1 - y) * W + x) * 4 + channel c))).
Proof.
  intros W H HW HH.
  assert (Hsize : 0 <= W * H * 4) by nia.
  eexists. split; [apply convertToBGRA_rows; exact Hsize|]. fold W H.
  set (out0 := replicate (Z.to_nat (W * H * 4)) Byte.x00).
  assert (Hout0 : byteLength out0 = W * H * 4).
  { unfold byteLength, out0. rewrite length_replicate. lia. }
  destruct (rows_spec (data imageData) W H HW (Z.to_nat H) out0) as [Rlen Rhit];
    [lia | exact Hout0 |].
  rewrite Z2Nat.id in Rlen, Rhit by lia.
  split; [unfold byteLength in *; lia|].
  intros y x c Hy Hx Hc. rewrite Rhit by assumption.
  pose proof (channel_range c Hc).
  rewrite array_get_lookup by nia. reflexivity.
Qed.

(** X5: on an image with pixels the data may be too short.  Whenever the
    transcoder returns, a byte of its output is the byte of the source
    pixel where the data has one, and 0 where it has none. *)
Theorem convertToBGRA_missing_bytes_read_as_zero
        (imageData : ImageData) (output : list byte) :
  let W := width imageData in
  let H := height imageData in
  0 < W -> 0 < H ->
  convertToBGRA imageData = Ok output ->
  forall y x c, 0 <= y < H -> 0 <= x < W -> 0 <= c < 4 ->
    let source := ((H - 1 - y) * W + x) * 4 + channel c in
    output !! Z.to_nat ((y * W + x) * 4 + c)
    = Some (match data imageData !! Z.to_nat source with
            | Some b => b
            | None => Byte.x00
            end).
Proof.
  intros W H HW HH Hreturned.
  destruct (convertToBGRA_reads imageData HW HH) as (output' & Hout & _ & Hpix).
  assert (output' = output) as -> by congruence.
  intros y x c Hy Hx Hc source. apply Hpix; assumption.
Qed.

Lemma convertToBGRA_missing_bytes_read_as_zero_witness :
  0 < 1 /\ 0 < 2
  /\ convertToBGRA {| width := 1; height := 2;
                      data := [Byte.x01; Byte.x02; Byte.x03; Byte.x04; Byte.x05] |}
     = Ok [Byte.x00; Byte.x00; Byte.x05; Byte.x00;
           Byte.x03; Byte.x02; Byte.x01; Byte.x04]
  /\ forall y x c, 0 <= y < 2 -> 0 <= x < 1 -> 0 <= c < 4 ->
       let source := ((2 - 1 - y) * 1 + x) * 4 + channel c in
       [Byte.x00; Byte.x00; Byte.x05; Byte.x00;
        Byte.x03; Byte.x02; Byte.x01; Byte.x04] !! Z.to_nat ((y * 1 + x) * 4 + c)
       = Some (match [Byte.x01; Byte.x02; Byte.x03; Byte.x04; Byte.x05]
                     !! Z.to_nat source with
               | Some b => b
               | None => Byte.x00
               end).
Proof.
  split; [lia|]. split; [lia|]. split; [vm_compute; reflexivity|].
  apply (convertToBGRA_missing_bytes_read_as_zero
           {| width := 1; height := 2;
              data := [Byte.x01; Byte.x02; Byte.x03; Byte.x04; Byte.x05] |});
    [reflexivity | reflexivity | vm_compute; reflexivity].
Defined.

(** X6: only the first width * height * 4 bytes of the data are read:
    what follows them has no effect on the output. *)
Theorem convertToBGRA_reads_prefix (W H : Z) (bytes : list byte) :
  0 < W -> 0 < H ->
  convertToBGRA {| width := W; height := H; data := bytes |}
  = convertToBGRA {| width := W; height := H;
                     data := take (Z.to_nat (W * H * 4)) bytes |}.
Proof.
  intros HW HH.
  destruct (convertToBGRA_reads {| width := W; height := H; data := bytes |} HW HH)
    as (out1 & Hout1 & Hlen1 & Hpix1).
  destruct (convertToBGRA_reads
              {| width := W; height := H; data := take (Z.to_nat (W * H * 4)) bytes |}
              HW HH)
    as (out2 & Hout2 & Hlen2 & Hpix2).
  cbn [width height data] in *. rewrite Hout1, Hout2. f_equal.
  apply list_eq. intros i.
  destruct (Z.lt_ge_cases (Z.of_nat i) (W * H * 4)) as [Hi | Hi].
  - destruct (position_split W H (Z.of_nat i)) as (y & x & c & Hy & Hx & Hc & Hpos);
      [exact HW | lia |].
    rewrite <- (Nat2Z.id i), Hpos.
    rewrite Hpix1, Hpix2 by assumption.
    pose proof (channel_range c Hc).
    rewrite lookup_take. destruct (decide _) as [_ | Hge]; [reflexivity|].
    exfalso. apply Hge. nia.
  - unfold byteLength in *. rewrite !lookup_ge_None_2 by lia. reflexivity.
Qed.

Lemma convertToBGRA_reads_prefix_witness :
  0 < 1 /\ 0 < 1
  /\ convertToBGRA {| width := 1; height := 1; data := png_signature |}
     = convertToBGRA {| width := 1; height := 1;
                        data := take (Z.to_nat (1 * 1 * 4)) png_signature |}.
Proof.
  split; [lia|]. split; [lia|].
  apply (convertToBGRA_reads_prefix 1 1 png_signature); lia.
Defined.

(** ** The assembled file *)

Lemma fetch_app_l (byteOffset : Z) (n : nat) (pre rest : list byte) :
  0 <= byteOffset -> byteOffset + Z.of_nat n <= byteLength pre ->
  fetch byteOffset n (pre ++ rest) = fetch byteOffset n pre.
Proof.
  intros Hlo Hhi. unfold fetch, byteLength in *. rewrite length_app.
  destruct (Z.ltb_spec byteOffset 0); [lia|].
  destruct (Z.ltb_spec (Z.of_nat (length pre + length rest)) (byteOffset + Z.of_nat n)); [lia|].
  destruct (Z.ltb_spec (Z.of_nat (length pre)) (byteOffset + Z.of_nat n)); [lia|].
  cbn [orb]. f_equal.
  rewrite drop_app_le by lia. apply take_app_le. rewrite length_drop. lia.
Qed.

Lemma fetch_app_r (pre rest : list byte) :
  fetch (byteLength pre) (length rest) (pre ++ rest) = Ok rest.
Proof.
  unfold fetch, byteLength. rewrite length_app, Nat2Z.id.
  destruct (Z.ltb_spec (Z.of_nat (length pre)) 0); [lia|].
  destruct (Z.ltb_spec (Z.of_nat (length pre + length rest))
              (Z.of_nat (length pre) + Z.of_nat (length rest))); [lia|].
  cbn [orb]. rewrite drop_app_length, firstn_all. reflexivity.
Qed.

(** Side conditions on offsets into the two headers. *)
Ltac header_bounds :=
  first [ lia
        | unfold byteLength; rewrite ?length_app, ?length_le_split;
          cbn [length]; lia ].

(** A field that lies within the headers is read from the headers alone. *)
Ltac in_headers :=
  unfold DataView.getUint8, DataView.getUint16, DataView.getUint32, DataView.getInt32;
  match goal with
  | |- context [fetch ?o ?n (?headers ++ ?pixels)] =>
      rewrite (fetch_app_l o n headers pixels) by header_bounds
  end.

(** The headers as the two builders lay them out, for a pixel array of
    [imageSize] bytes and an image of [w] times [h]. *)
Lemma assembleBmp_parts (imageData : ImageData) (w h : Z) (pixelData : list byte) :
  convertToBGRA imageData = Ok pixelData ->
  assembleBmp imageData w h
  = Ok ((([Byte.x42; Byte.x4d] ++ le_split 4 (54 + byteLength (data imageData))
          ++ [Byte.x00; Byte.x00; Byte.x00; Byte.x00] ++ le_split 4 54)
         ++ (le_split 4 40 ++ le_split 4 w ++ le_split 4 h
             ++ le_split 2 1 ++ le_split 2 32 ++ le_split 4 0
             ++ le_split 4 (w * h * 4) ++ le_split 4 2835 ++ le_split 4 2835
             ++ le_split 4 0 ++ le_split 4 0))
        ++ pixelData).
Proof.
  intros Hpx. unfold assembleBmp.
  rewrite createBmpFileHeader_bytes. cbn [bind].
  rewrite createBmpInfoHeader_bytes. cbn [bind].
  rewrite Hpx. cbn [bind]. rewrite store_parts, app_assoc. reflexivity.
Qed.

(** X7: when width * height * 4 does not exceed the length of the data,
    and all the numbers involved are ones a double holds exactly, the
    assembly fails exactly for a negative pixel count, with the
    [RangeError] of the transcoder's allocation, and otherwise returns
    54 + width * height * 4 bytes, whatever width and height are written to
    the info header. *)
Theorem assembleBmp_length (imageData : ImageData) (image_width image_height : Z) :
  let size := width imageData * height imageData * 4 in
  safe_integer (width imageData) ->
  safe_integer (height imageData) ->
  safe_integer image_width ->
  safe_integer image_height ->
  safe_integer (image_width * image_height * 4) ->
  safe_integer (54 + byteLength (data imageData)) ->
  size <= byteLength (data imageData) ->
  (size < 0
   /\ assembleBmp imageData image_width image_height
      = Err (RangeError "Invalid typed array length"))
  \/ (0 <= size
      /\ exists bmpData,
           assembleBmp imageData image_width image_height = Ok bmpData
           /\ byteLength bmpData = 54 + size).
Proof.
  intros size _ _ _ _ _ _ _. destruct (Z.lt_ge_cases size 0) as [Hneg | Hpos].
  - left. split; [exact Hneg|]. unfold assembleBmp.
    rewrite createBmpFileHeader_bytes, createBmpInfoHeader_bytes. cbn [bind].
    unfold convertToBGRA, new_Uint8Array. fold size.
    destruct (Z.ltb_spec size 0); [reflexivity | lia].
  - right. split; [exact Hpos|].
    pose proof (convertToBGRA_rows imageData Hpos) as Hpx.
    eexists. split; [apply (assembleBmp_parts _ _ _ _ Hpx)|].
    unfold byteLength. rewrite (length_app _ (rows _ _ _ _ _)).
    rewrite rows_length, length_replicate. fold size.
    rewrite !length_app, !length_le_split. cbn [length]. lia.
Qed.

Lemma assembleBmp_length_witness :
  safe_integer (-1) /\ safe_integer 1 /\ safe_integer 3 /\ safe_integer 2
  /\ safe_integer (3 * 2 * 4)
  /\ safe_integer (54 + byteLength png_signature)
  /\ -1 * 1 * 4 <= byteLength png_signature
  /\ ((-1 * 1 * 4 < 0
       /\ assembleBmp {| width := -1; height := 1; data := png_signature |} 3 2
          = Err (RangeError "Invalid typed array length"))
      \/ (0 <= -1 * 1 * 4
          /\ exists bmpData,
               assembleBmp {| width := -1; height := 1; data := png_signature |} 3 2
               = Ok bmpData
               /\ byteLength bmpData = 54 + -1 * 1 * 4)).
Proof.
  split; [split; reflexivity|]. split; [split; reflexivity|].
  split; [split; reflexivity|]. split; [split; reflexivity|].
  split; [split; reflexivity|]. split; [split; reflexivity|].
  split; [discriminate|].
  apply (assembleBmp_length {| width := -1; height := 1; data := png_signature |} 3 2);
    try (split; reflexivity).
  discriminate.
Defined.



(** X9: when the pixel count is not negative and does not exceed the
    length of the data, and the numbers involved are ones a double holds
    exactly, the assembled file has 54 in its offset field at 10 and the
    transcoded pixels as its bytes from 54 to the end; the info header
    follows the file header, so that its size, the width and height handed
    to the assembler, and the bit depth are read at offsets 14, 18, 22
    and 28. *)
Theorem assembleBmp_pixels_at_offset (imageData : ImageData) (image_width image_height : Z) :
  safe_integer (width imageData) ->
  safe_integer (height imageData) ->
  0 <= width imageData * height imageData * 4 <= byteLength (data imageData) ->
  safe_integer (54 + byteLength (data imageData)) ->
  - 2 ^ 31 <= image_width < 2 ^ 31 ->
  - 2 ^ 31 <= image_height < 2 ^ 31 ->
  safe_integer (image_width * image_height * 4) ->
  exists bmpData pixelData,
    assembleBmp imageData image_width image_height = Ok bmpData
    /\ convertToBGRA imageData = Ok pixelData
    /\ DataView.getUint32 10 true bmpData = Ok 54
    /\ fetch 54 (length pixelData) bmpData = Ok pixelData
    /\ byteLength bmpData = 54 + byteLength pixelData
    /\ DataView.getUint32 14 true bmpData = Ok 40
    /\ DataView.getInt32 18 true bmpData = Ok image_width
    /\ DataView.getInt32 22 true bmpData = Ok image_height
    /\ DataView.getUint16 28 true bmpData = Ok 32.
Proof.
  intros _ _ [Hpos _] _ Hw Hh _.
  pose proof (convertToBGRA_rows imageData Hpos) as Hpx.
  eexists _, _. split; [apply (assembleBmp_parts _ _ _ _ Hpx)|].
  split; [exact Hpx|].
  split; [in_headers; reflexivity|].
  split.
  { match goal with
    | |- fetch 54 _ (?headers ++ ?pixels) = _ => exact (fetch_app_r headers pixels)
    end. }
  split.
  { unfold byteLength. rewrite (length_app _ (rows _ _ _ _ _)).
    rewrite !length_app, !length_le_split. cbn [length]. lia. }
  split; [in_headers; reflexivity|].
  split.
  { in_headers. change (fetch 18 4 _) with (Ok (le_split 4 image_width)).
    cbn [bind DataView.ordered]. rewrite toInt32_le_split by exact Hw. reflexivity. }
  split; [|in_headers; reflexivity].
  in_headers. change (fetch 22 4 _) with (Ok (le_split 4 image_height)).
  cbn [bind DataView.ordered]. rewrite toInt32_le_split by exact Hh. reflexivity.
Qed.

Lemma assembleBmp_pixels_at_offset_witness :
  safe_integer (width two_rows) /\ safe_integer (height two_rows)
  /\ 0 <= width two_rows * height two_rows * 4 <= byteLength (data two_rows)
  /\ safe_integer (54 + byteLength (data two_rows))
  /\ - 2 ^ 31 <= 1 < 2 ^ 31 /\ - 2 ^ 31 <= 2 < 2 ^ 31
  /\ safe_integer (1 * 2 * 4)
  /\ exists bmpData pixelData,
       assembleBmp two_rows 1 2 = Ok bmpData
       /\ convertToBGRA two_rows = Ok pixelData
       /\ DataView.getUint32 10 true bmpData = Ok 54
       /\ fetch 54 (length pixelData) bmpData = Ok pixelData
       /\ byteLength bmpData = 54 + byteLength pixelData
       /\ DataView.getUint32 14 true bmpData = Ok 40
       /\ DataView.getInt32 18 true bmpData = Ok 1
       /\ DataView.getInt32 22 true bmpData = Ok 2
       /\ DataView.getUint16 28 true bmpData = Ok 32.
Proof.
  split; [split; reflexivity|]. split; [split; reflexivity|].
  split; [split; discriminate|]. split; [split; reflexivity|].
  split; [lia|]. split; [lia|]. split; [split; reflexivity|].
  apply (assembleBmp_pixels_at_offset two_rows 1 2);
    [split; reflexivity | split; reflexivity | split; discriminate
    | split; reflexivity | lia | lia | split; reflexivity].
Defined.

(** ** The type check and the output name *)

Section MoreStrings.
Local Open Scope string_scope.

Lemma prefix_nil (s : string) : String.prefix "" s = true.
Proof. destruct s; reflexivity. Qed.

Lemma prefix_app (p post : string) : String.prefix p (p ++ post) = true.
Proof.
  induction p as [|a p IH]; cbn [append]; [apply prefix_nil|].
  cbn [String.prefix]. destruct (ascii_dec a a) as [_ | Hne]; [exact IH | contradiction].
Qed.

Lemma prefix_true_inv (p s : string) :
  String.prefix p s = true -> exists post, s = p ++ post.
Proof.
  revert s. induction p as [|a p IH]; intros s Hpre.
  - exists s. reflexivity.
  - destruct s as [|b s]; [discriminate|]. cbn [String.prefix] in Hpre.
    destruct (ascii_dec a b) as [-> | _]; [|discriminate].
    destruct (IH s Hpre) as [post ->]. exists post. reflexivity.
Qed.

Lemma includes_unfold (p s : string) :
  includes p s
  = String.prefix p s
    || match s with
       | EmptyString => false
       | String _ s' => includes p s'
       end.
Proof. destruct s; reflexivity. Qed.

(** [includes] is the substring test. *)
Lemma includes_true_iff (p s : string) :
  includes p s = true <-> exists pre post, s = pre ++ p ++ post.
Proof.
  split.
  - induction s as [|c s IH]; rewrite includes_unfold; intros Hinc;
      apply orb_true_iff in Hinc as [Hpre | Hrest].
    + destruct (prefix_true_inv _ _ Hpre) as [post Hpost]. exists "", post. exact Hpost.
    + discriminate.
    + destruct (prefix_true_inv _ _ Hpre) as [post Hpost]. exists "", post. exact Hpost.
    + destruct (IH Hrest) as (pre & post & ->). exists (String c pre), post. reflexivity.
  - intros (pre & post & ->). induction pre as [|c pre IH]; rewrite includes_unfold.
    + cbn [append]. rewrite prefix_app. reflexivity.
    + cbn [append]. rewrite IH. apply orb_true_r.
Qed.

Lemma string_drop_app (p post : string) : string_drop (String.length p) (p ++ post) = post.
Proof. induction p as [|a p IH]; [destruct post; reflexivity | exact IH]. Qed.

Lemma replace_unfold (pattern replacement s : string) :
  replace pattern replacement s
  = if String.prefix pattern s
    then replacement ++ string_drop (String.length pattern) s
    else match s with
         | EmptyString => EmptyString
         | String c s' => String c (replace pattern replacement s')
         end.
Proof. destruct s; reflexivity. Qed.

Lemma replace_length (pattern replacement s : string) :
  String.length replacement = String.length pattern ->
  String.length (replace pattern replacement s) = String.length s.
Proof.
  intros Hsame. induction s as [|c s IH].
  - cbn [replace]. destruct (String.prefix pattern "") eqn:Hpre; [|reflexivity].
    destruct (prefix_true_inv _ _ Hpre) as [post Hpost].
    rewrite Hpost at 1. rewrite string_drop_app, append_length, Hsame, <- append_length, <- Hpost.
    reflexivity.
  - cbn [replace]. destruct (String.prefix pattern (String c s)) eqn:Hpre.
    + destruct (prefix_true_inv _ _ Hpre) as [post Hpost].
      rewrite Hpost at 1. rewrite string_drop_app, append_length, Hsame, <- append_length, <- Hpost.
      reflexivity.
    + cbn [String.length]. rewrite IH. reflexivity.
Qed.

Lemma replace_first_png (pre post : string) :
  includes ".png" (pre ++ ".pn") = false ->
  replace ".png" ".bmp" (pre ++ ".png" ++ post) = pre ++ ".bmp" ++ post.
Proof.
  induction pre as [|c pre IH]; intros Habs.
  - change ("" ++ ".png" ++ post) with (".png" ++ post).
    rewrite replace_unfold, prefix_app, string_drop_app. reflexivity.
  - cbn [append] in Habs. apply includes_false_inv in Habs as [Hpre Hrest].
    assert (Hpre' : String.prefix ".png" (String c (pre ++ ".png" ++ post)) = false).
    { change (String c (pre ++ ".png" ++ post))
        with ((String c pre) ++ (".pn" ++ ("g" ++ post))).
      rewrite <- append_assoc, prefix_app_short; [exact Hpre|].
      rewrite append_length. cbn [String.length]. lia. }
    change (String c pre ++ ".png" ++ post) with (String c (pre ++ ".png" ++ post)).
    rewrite replace_unfold, Hpre'.
    change (String c pre ++ ".bmp" ++ post) with (String c (pre ++ ".bmp" ++ post)).
    f_equal. apply IH. exact Hrest.
Qed.

End MoreStrings.

Lemma convertPngToBmp_non_png (browser : Browser) (file : File.t) (w : World) :
  includes "png" (File.type file) = false ->
  convertPngToBmp browser file w = (Err (Error "Only PNG files are supported"), w).
Proof. intros Htype. unfold convertPngToBmp. rewrite Htype. reflexivity. Qed.




(** X10: the type check is a substring test.  A file is taken for a PNG,
    and a result returned, exactly when its type holds "png" somewhere;
    every other file is rejected with the page untouched. *)
Theorem convertPngToBmp_type_check (browser : Browser) (file : File.t) (w : World) :
  ((exists pre post : string, File.type file = (pre ++ "png" ++ post)%string)
   /\ exists r w', convertPngToBmp browser file w = (Ok r, w'))
  \/ (~ (exists pre post : string, File.type file = (pre ++ "png" ++ post)%string)
      /\ convertPngToBmp browser file w
         = (Err (Error "Only PNG files are supported"), w)).
Proof.
  destruct (includes "png" (File.type file)) eqn:Htype.
  - left. split; [apply includes_true_iff; exact Htype|].
    destruct (convertPngToBmp_png browser file w Htype) as (u & w' & Hrun & _).
    eexists _, _. exact Hrun.
  - right. split.
    + intros Hsub. apply includes_true_iff in Hsub. congruence.
    + apply convertPngToBmp_non_png. exact Htype.
Qed.

(** X11: it is the first ".png" of the name that becomes ".bmp", wherever it
    stands; what follows it, a second ".png" included, is kept. *)
Theorem outputName_first_occurrence (file : File.t) (pre post : string) :
  File.name file = (pre ++ ".png" ++ post)%string ->
  includes ".png" (pre ++ ".pn") = false ->
  outputName file = (pre ++ ".bmp" ++ post)%string.
Proof.
  intros Hname Hfirst. unfold outputName. rewrite Hname.
  apply replace_first_png. exact Hfirst.
Qed.

Lemma outputName_first_occurrence_witness :
  File.name twice_png = ("a" ++ ".png" ++ ".png")%string
  /\ includes ".png" ("a" ++ ".pn") = false
  /\ outputName twice_png = ("a" ++ ".bmp" ++ ".png")%string.
Proof.
  split; [reflexivity|]. split; [reflexivity|].
  apply (outputName_first_occurrence twice_png "a" ".png"); reflexivity.
Defined.

(** X12: the output name is as long as the input name. *)
Theorem outputName_length (file : File.t) :
  String.length (outputName file) = String.length (File.name file).
Proof. unfold outputName. apply replace_length. reflexivity. Qed.

(** ** The entry point and the page *)

(** What the try block does to the page: it starts the one image load, and
    registers at most one blob. *)
Lemma convertPngToBmp_try_page (browser : Browser) (file : File.t) (imageUrl : URL)
      (w : World) :
  exists more,
    object_urls (snd (convertPngToBmp_try browser file imageUrl w))
    = object_urls w ++ more
    /\ (length more <= 1)%nat
    /\ image_loads (snd (convertPngToBmp_try browser file imageUrl w))
       = image_loads w ++ [imageUrl].
Proof.
  unfold convertPngToBmp_try, mbind, loadImage, ret, lift, throw, createObjectURL.
  destruct (resolve w imageUrl) as [blob|];
    [destruct (decode browser blob) as [image|]|];
    try (exists []; cbn [snd object_urls image_loads length];
         rewrite app_nil_r; repeat split; lia).
  destruct (getContext_2d browser _ _);
    [destruct (getImageData browser image 0 0 _ _) as [imageData|];
     [destruct (assembleBmp imageData _ _) as [bmpData|]|]|];
    try (exists []; cbn [snd object_urls image_loads length];
         rewrite app_nil_r; repeat split; lia).
  eexists [_]. cbn [snd object_urls image_loads length]. repeat split; lia.
Qed.

(** The run of the function on a file that passes the type check. *)
Lemma convertPngToBmp_png_page (browser : Browser) (file : File.t) (w : World) :
  includes "png" (File.type file) = true ->
  exists more,
    (length more <= 1)%nat
    /\ convertPngToBmp browser file w
       = (Ok {| ConvertedFile.name := outputName file;
                ConvertedFile.url := (length (object_urls w) + 1 + length more)%nat |},
          {| object_urls := object_urls w ++ [File.blob file] ++ more ++ [File.blob file];
             image_loads := image_loads w ++ [length (object_urls w)] |}).
Proof.
  intros Hpng. unfold convertPngToBmp. rewrite Hpng. cbn [negb].
  unfold mbind at 1, createObjectURL at 1, try_finally.
  set (w0 := {| object_urls := object_urls w ++ [File.blob file];
                image_loads := image_loads w |}).
  destruct (convertPngToBmp_try_page browser file (length (object_urls w)) w0)
    as (more & Hurls & Hmore & Hloads).
  destruct (convertPngToBmp_try _ _ _ _) as [completion w1].
  cbn [snd] in Hurls, Hloads. cbn [object_urls image_loads w0] in Hurls, Hloads.
  exists more. split; [exact Hmore|].
  unfold convertPngToBmp_finally, mbind, createObjectURL, ret.
  rewrite Hurls, Hloads. f_equal.
  - f_equal. f_equal. rewrite !length_app. cbn [length]. lia.
  - f_equal. rewrite <- !app_assoc. reflexivity.
Qed.

(** X13: whatever the browser makes of a file that passes the type check
    (a decode error, no canvas context, a canvas error, a good image), the
    function resolves, and the URL it returns is a new one that stands for
    the file it was given, under the file's own type. *)
Theorem convertPngToBmp_returns_the_source (browser : Browser) (file : File.t) (w : World) :
  includes "png" (File.type file) = true ->
  exists u w',
    convertPngToBmp browser file w
    = (Ok {| ConvertedFile.name := outputName file; ConvertedFile.url := u |}, w')
    /\ resolve w u = None
    /\ resolve w' u
       = Some {| blob_bytes := File.bytes file; blob_type := File.type file |}.
Proof.
  intros Hpng.
  destruct (convertPngToBmp_png_page browser file w Hpng) as (more & Hmore & Hrun).
  eexists _, _. split; [exact Hrun|]. unfold resolve. cbn [object_urls]. split.
  - apply lookup_ge_None_2. lia.
  - rewrite (app_assoc [File.blob file]), (app_assoc (object_urls w)).
    apply list_lookup_middle. rewrite !length_app. cbn [length]. lia.
Qed.

Lemma convertPngToBmp_returns_the_source_witness :
  includes "png" (File.type broken_png) = true
  /\ exists u w',
       convertPngToBmp sample_browser broken_png empty_page
       = (Ok {| ConvertedFile.name := outputName broken_png; ConvertedFile.url := u |}, w')
       /\ resolve empty_page u = None
       /\ resolve w' u
          = Some {| blob_bytes := File.bytes broken_png;
                    blob_type := File.type broken_png |}.
Proof.
  split; [reflexivity|].
  apply (convertPngToBmp_returns_the_source sample_browser broken_png empty_page).
  reflexivity.
Defined.

(** X14: on a file that passes the type check the function registers the
    file, at most one more blob, and the file again, after the URLs the page
    had, which all stay; and it starts exactly one image load, from the
    first of these URLs. *)
Theorem convertPngToBmp_page_effect (browser : Browser) (file : File.t) (w : World) :
  includes "png" (File.type file) = true ->
  let w' := snd (convertPngToBmp browser file w) in
  (exists more,
     (length more <= 1)%nat
     /\ object_urls w'
        = object_urls w ++ [File.blob file] ++ more ++ [File.blob file])
  /\ image_loads w' = image_loads w ++ [length (object_urls w)]
  /\ (forall u blob, resolve w u = Some blob -> resolve w' u = Some blob).
Proof.
  intros Hpng w'.
  destruct (convertPngToBmp_png_page browser file w Hpng) as (more & Hmore & Hrun).
  subst w'. rewrite Hrun. cbn [snd object_urls image_loads].
  split; [exists more; split; [exact Hmore | reflexivity]|].
  split; [reflexivity|].
  intros u blob Hu. unfold resolve in *. cbn [object_urls].
  apply lookup_app_l_Some. exact Hu.
Qed.

Lemma convertPngToBmp_page_effect_witness :
  includes "png" (File.type photo_png) = true
  /\ let w' := snd (convertPngToBmp sample_browser photo_png photo_page) in
     (exists more,
        (length more <= 1)%nat
        /\ object_urls w'
           = object_urls photo_page ++ [File.blob photo_png] ++ more
             ++ [File.blob photo_png])
     /\ image_loads w' = image_loads photo_page ++ [length (object_urls photo_page)]
     /\ (forall u blob, resolve photo_page u = Some blob -> resolve w' u = Some blob).
Proof.
  split; [reflexivity|].
  apply (convertPngToBmp_page_effect sample_browser photo_png photo_page).
  reflexivity.
Defined.

(** X15: when the browser loads the image, has a canvas context and
    [getImageData] returns image data of the image's size, with
    width * height * 4 bytes and a file below 2^32 bytes, the try block
    returns a new URL, and behind it is a blob of type "image/bmp" with the
    assembled file: 54 + width * height * 4 bytes that start with "BM". *)
Theorem convertPngToBmp_try_returns_bmp
        (browser : Browser) (file : File.t) (imageUrl : URL) (w : World)
        (blob : Blob) (image : HTMLImageElement) (imageData : ImageData) :
  resolve w imageUrl = Some blob ->
  decode browser blob = Some image ->
  getContext_2d browser (image_width image) (image_height image) = true ->
  getImageData browser image 0 0 (image_width image) (image_height image) = Ok imageData ->
  width imageData = image_width image ->
  height imageData = image_height image ->
  0 < width imageData -> 0 < height imageData ->
  byteLength (data imageData) = width imageData * height imageData * 4 ->
  54 + byteLength (data imageData) < 2 ^ 32 ->
  exists r w' bmpData,
    convertPngToBmp_try browser file imageUrl w = (Ok r, w')
    /\ ConvertedFile.name r = outputName file
    /\ resolve w (ConvertedFile.url r) = None
    /\ resolve w' (ConvertedFile.url r)
       = Some {| blob_bytes := bmpData; blob_type := "image/bmp" |}
    /\ assembleBmp imageData (image_width image) (image_height image) = Ok bmpData
    /\ byteLength bmpData = 54 + width imageData * height imageData * 4
    /\ DataView.getUint8 0 bmpData = Ok 0x42
    /\ DataView.getUint8 1 bmpData = Ok 0x4D.
Proof.
  intros Hurl Hdecode Hctx Hdata _ _ HW HH Hlen _.
  assert (Hsize : 0 <= width imageData * height imageData * 4) by nia.
  pose proof (assembleBmp_parts imageData (image_width image) (image_height image) _
                (convertToBGRA_rows imageData Hsize)) as Hbmp.
  eexists _, _, _. split.
  { unfold convertPngToBmp_try, mbind, loadImage.
    rewrite Hurl, Hdecode, Hctx. unfold ret, lift. rewrite Hdata, Hbmp.
    unfold createObjectURL. cbn [object_urls image_loads]. reflexivity. }
  cbn [ConvertedFile.name ConvertedFile.url]. unfold resolve. cbn [object_urls].
  split; [reflexivity|].
  split; [apply lookup_ge_None_2; lia|].
  split; [apply list_lookup_middle; reflexivity|].
  split; [exact Hbmp|].
  split.
  { unfold byteLength. rewrite (length_app _ (rows _ _ _ _ _)).
    rewrite rows_length, length_replicate.
    rewrite !length_app, !length_le_split. cbn [length]. lia. }
  split; in_headers; reflexivity.
Qed.

Lemma convertPngToBmp_try_returns_bmp_witness :
  resolve photo_page 0%nat = Some (File.blob photo_png)
  /\ decode sample_browser (File.blob photo_png) = Some one_pixel
  /\ getContext_2d sample_browser 1 1 = true
  /\ getImageData sample_browser one_pixel 0 0 1 1
     = Ok {| width := 1; height := 1; data := image_pixels one_pixel |}
  /\ 0 < 1
  /\ byteLength (image_pixels one_pixel) = 1 * 1 * 4
  /\ 54 + byteLength (image_pixels one_pixel) < 2 ^ 32
  /\ exists r w' bmpData,
       convertPngToBmp_try sample_browser photo_png 0%nat photo_page = (Ok r, w')
       /\ ConvertedFile.name r = outputName photo_png
       /\ resolve photo_page (ConvertedFile.url r) = None
       /\ resolve w' (ConvertedFile.url r)
          = Some {| blob_bytes := bmpData; blob_type := "image/bmp" |}
       /\ assembleBmp {| width := 1; height := 1; data := image_pixels one_pixel |} 1 1
          = Ok bmpData
       /\ byteLength bmpData = 54 + 1 * 1 * 4
       /\ DataView.getUint8 0 bmpData = Ok 0x42
       /\ DataView.getUint8 1 bmpData = Ok 0x4D.
Proof.
  split; [reflexivity|]. split; [reflexivity|]. split; [reflexivity|].
  split; [reflexivity|]. split; [lia|]. split; [reflexivity|]. split; [reflexivity|].
  apply (convertPngToBmp_try_returns_bmp sample_browser photo_png 0%nat photo_page
           (File.blob photo_png) one_pixel
           {| width := 1; height := 1; data := image_pixels one_pixel |});
    reflexivity.
Defined.

(** ** The converter component *)

(** The loop over a run of files that pass the type check: one result for
    each, in order, whose URL stands for the file itself when the loop has
    gone past the run; the page keeps its URLs, and of the component's state
    only the progress changes. *)
Lemma conversion_loop_app (browser : Browser) (n : Z) (run rest : list File.t) :
  Forall is_png run ->
  forall (i : Z) (converted : list ConvertedFile.t) (st : Component.t) (w : World),
  exists results st1 w1 more,
    conversion_loop browser n i (run ++ rest) converted st w
    = conversion_loop browser n (i + Z.of_nat (length run)) rest
        (converted ++ results) st1 w1
    /\ map ConvertedFile.name results = map outputName run
    /\ Forall2 (fun file r => resolve w1 (ConvertedFile.url r) = Some (File.blob file))
         run results
    /\ object_urls w1 = object_urls w ++ more
    /\ Component.files st1 = Component.files st
    /\ Component.convertedFiles st1 = Component.convertedFiles st
    /\ Component.isConverting st1 = Component.isConverting st
    /\ Component.progress st1
       = match run with
         | [] => Component.progress st
         | _ :: _ => Percent (i + Z.of_nat (length run)) n
         end.
Proof.
  induction 1 as [|file run Hpng Hrun IH]; intros i converted st w.
  - exists [], st, w, []. cbn [app length map]. rewrite Z.add_0_r, !app_nil_r.
    repeat split. constructor.
  - destruct (convertPngToBmp_png_page browser file w Hpng) as (extra & _ & Hfile).
    cbn [app conversion_loop]. rewrite Hfile.
    set (r := {| ConvertedFile.name := outputName file; ConvertedFile.url := _ |}).
    set (wa := {| object_urls := _; image_loads := _ |}).
    destruct (IH (i + 1) (converted ++ [r])
                (Component.setProgress (Percent (i + 1) n) st) wa)
      as (results & st1 & w1 & more & Hloop & Hnames & Hurls & Hgrow
          & Hfiles & Hconv & Hflag & Hprog).
    exists (r :: results), st1, w1,
      (([File.blob file] ++ extra ++ [File.blob file]) ++ more).
    split.
    { rewrite Hloop. rewrite <- app_assoc. cbn [app length].
      replace (i + 1 + Z.of_nat (length run)) with (i + Z.of_nat (S (length run))) by lia.
      reflexivity. }
    split; [cbn [map]; rewrite Hnames; reflexivity|].
    split.
    { constructor; [|exact Hurls].
      unfold resolve. rewrite Hgrow. apply lookup_app_l_Some.
      subst wa r. cbn [object_urls ConvertedFile.url].
      rewrite (app_assoc [File.blob file]), (app_assoc (object_urls w)).
      apply list_lookup_middle. rewrite !length_app. cbn [length]. lia. }
    split; [rewrite Hgrow; subst wa; cbn [object_urls]; rewrite <- !app_assoc; reflexivity|].
    split; [exact Hfiles|]. split; [exact Hconv|]. split; [exact Hflag|].
    rewrite Hprog. destruct run as [|file' run']; cbn [length Component.progress Component.setProgress].
    + f_equal; lia.
    + f_equal; lia.
Qed.

(** The whole loop on files that all pass the type check. *)
Lemma conversion_loop_all (browser : Browser) (n : Z) (files : list File.t)
      (st : Component.t) (w : World) :
  Forall is_png files ->
  exists results st1 w1 more,
    conversion_loop browser n 0 files [] st w = (Ok results, st1, w1)
    /\ map ConvertedFile.name results = map outputName files
    /\ Forall2 (fun file r => resolve w1 (ConvertedFile.url r) = Some (File.blob file))
         files results
    /\ object_urls w1 = object_urls w ++ more
    /\ Component.files st1 = Component.files st
    /\ Component.convertedFiles st1 = Component.convertedFiles st
    /\ Component.isConverting st1 = Component.isConverting st
    /\ Component.progress st1
       = match files with
         | [] => Component.progress st
         | _ :: _ => Percent (Z.of_nat (length files)) n
         end.
Proof.
  intros Hpng.
  destruct (conversion_loop_app browser n files [] Hpng 0 [] st w)
    as (results & st1 & w1 & more & Hloop & Hrest).
  rewrite app_nil_r in Hloop. cbn [conversion_loop app] in Hloop.
  exists results, st1, w1, more. split; [exact Hloop|].
  rewrite Z.add_0_l in Hrest. exact Hrest.
Qed.

(** X16: when every selected file passes the type check the handler runs to
    its end: there is one result for each file, in the order of the files
    and under the derived names; the list of selected files is emptied, the
    converting flag is down again, and the progress stands at all files out
    of all files. *)
Theorem handleConversion_converts_all (browser : Browser) (st : Component.t) (w : World) :
  Forall is_png (Component.files st) ->
  exists results w',
    handleConversion browser st w
    = (Ok tt,
       {| Component.files := [];
          Component.convertedFiles := results;
          Component.isConverting := false;
          Component.progress :=
            match Component.files st with
            | [] => Number 0
            | _ :: _ => Percent (Z.of_nat (length (Component.files st)))
                          (Z.of_nat (length (Component.files st)))
            end |},
       w')
    /\ map ConvertedFile.name results = map outputName (Component.files st)
    /\ length results = length (Component.files st).
Proof.
  intros Hpng. unfold handleConversion.
  destruct (conversion_loop_all browser (Z.of_nat (length (Component.files st)))
              (Component.files st)
              (Component.setProgress (Number 0) (Component.setIsConverting true st))
              w Hpng)
    as (results & st1 & w1 & more & Hloop & Hnames & _ & _ & _ & _ & _ & Hprog).
  rewrite Hloop. exists results, w1. split; [|split; [exact Hnames|]].
  - unfold Component.setFiles, Component.setIsConverting, Component.setConvertedFiles.
    cbn [Component.files Component.convertedFiles Component.isConverting Component.progress].
    rewrite Hprog. cbn [Component.progress Component.setProgress]. reflexivity.
  - rewrite <- (length_map ConvertedFile.name), Hnames, length_map. reflexivity.
Qed.

Lemma handleConversion_converts_all_witness :
  Forall is_png (Component.files (onDrop [photo_png; twice_png] Component.initial))
  /\ exists results w',
       handleConversion sample_browser (onDrop [photo_png; twice_png] Component.initial)
         empty_page
       = (Ok tt,
          {| Component.files := [];
             Component.convertedFiles := results;
             Component.isConverting := false;
             Component.progress := Percent 2 2 |},
          w')
       /\ map ConvertedFile.name results = ["photo.bmp"; "a.bmp.png"]%string
       /\ length results = 2%nat.
Proof.
  split; [repeat constructor|].
  apply (handleConversion_converts_all sample_browser
           (onDrop [photo_png; twice_png] Component.initial) empty_page).
  repeat constructor.
Defined.

(** X17: after such a run every download link of the component leads to
    the file that was selected, not to a bitmap: the URL of the k-th result
    stands for the k-th selected file. *)
Theorem handleConversion_links_lead_to_sources
        (browser : Browser) (st : Component.t) (w : World) :
  Forall is_png (Component.files st) ->
  exists st' w',
    handleConversion browser st w = (Ok tt, st', w')
    /\ Forall2 (fun file r => resolve w' (ConvertedFile.url r) = Some (File.blob file))
         (Component.files st) (Component.convertedFiles st').
Proof.
  intros Hpng. unfold handleConversion.
  destruct (conversion_loop_all browser (Z.of_nat (length (Component.files st)))
              (Component.files st)
              (Component.setProgress (Number 0) (Component.setIsConverting true st))
              w Hpng)
    as (results & st1 & w1 & more & Hloop & _ & Hurls & _).
  rewrite Hloop. eexists _, _. split; [reflexivity|]. exact Hurls.
Qed.

Lemma handleConversion_links_lead_to_sources_witness :
  Forall is_png (Component.files (onDrop [photo_png; twice_png] Component.initial))
  /\ exists st' w',
       handleConversion sample_browser (onDrop [photo_png; twice_png] Component.initial)
         empty_page
       = (Ok tt, st', w')
       /\ Forall2 (fun file r =>
                     resolve w' (ConvertedFile.url r) = Some (File.blob file))
            [photo_png; twice_png] (Component.convertedFiles st').
Proof.
  split; [repeat constructor|].
  apply (handleConversion_links_lead_to_sources sample_browser
           (onDrop [photo_png; twice_png] Component.initial) empty_page).
  repeat constructor.
Defined.

(** X18: the first selected file that fails the type check ends the whole
    run.  The handler rejects with the unsupported-format error, no result
    is shown, not even for the files converted before it, the selected
    files stay selected and the converting flag stays up. *)
Theorem handleConversion_stops_at_first_rejection
        (browser : Browser) (st : Component.t) (w : World)
        (run : list File.t) (file : File.t) (rest : list File.t) :
  Component.files st = run ++ file :: rest ->
  Forall is_png run ->
  includes "png" (File.type file) = false ->
  exists st' w',
    handleConversion browser st w
    = (Err (Error "Only PNG files are supported"), st', w')
    /\ Component.files st' = Component.files st
    /\ Component.convertedFiles st' = Component.convertedFiles st
    /\ Component.isConverting st' = true.
Proof.
  intros Hfiles Hrun Htype. unfold handleConversion. rewrite Hfiles.
  destruct (conversion_loop_app browser (Z.of_nat (length (run ++ file :: rest)))
              run (file :: rest) Hrun 0 []
              (Component.setProgress (Number 0) (Component.setIsConverting true st)) w)
    as (results & st1 & w1 & more & Hloop & _ & _ & _ & Hf & Hc & Hi & _).
  rewrite Hloop. cbn [conversion_loop].
  rewrite (convertPngToBmp_non_png browser file w1 Htype).
  exists st1, w1. split; [reflexivity|].
  rewrite Hf, Hc, Hi. cbn. rewrite Hfiles. repeat split.
Qed.

Lemma handleConversion_stops_at_first_rejection_witness :
  Component.files (onDrop [photo_png; photo_jpg; noext] Component.initial)
  = [photo_png] ++ photo_jpg :: [noext]
  /\ Forall is_png [photo_png]
  /\ includes "png" (File.type photo_jpg) = false
  /\ exists st' w',
       handleConversion sample_browser
         (onDrop [photo_png; photo_jpg; noext] Component.initial) empty_page
       = (Err (Error "Only PNG files are supported"), st', w')
       /\ Component.files st'
          = Component.files (onDrop [photo_png; photo_jpg; noext] Component.initial)
       /\ Component.convertedFiles st'
          = Component.convertedFiles
              (onDrop [photo_png; photo_jpg; noext] Component.initial)
       /\ Component.isConverting st' = true.
Proof.
  split; [reflexivity|]. split; [repeat constructor|]. split; [reflexivity|].
  apply (handleConversion_stops_at_first_rejection sample_browser
           (onDrop [photo_png; photo_jpg; noext] Component.initial) empty_page
           [photo_png] photo_jpg [noext]); [reflexivity | repeat constructor | reflexivity].
Defined.

(** X19: the two failures of the try block itself.  An image that does
    not load rejects with the error event, and a canvas without a 2D
    context throws "Failed to get canvas context"; in both cases the load
    has been started and no blob has been registered. *)
Theorem convertPngToBmp_try_failures
        (browser : Browser) (file : File.t) (imageUrl : URL) (w : World) (blob : Blob) :
  resolve w imageUrl = Some blob ->
  let loading := {| object_urls := object_urls w;
                    image_loads := image_loads w ++ [imageUrl] |} in
  (decode browser blob = None ->
   convertPngToBmp_try browser file imageUrl w = (Err ErrorEvent, loading))
  /\ (forall image,
        decode browser blob = Some image ->
        getContext_2d browser (image_width image) (image_height image) = false ->
        convertPngToBmp_try browser file imageUrl w
        = (Err (Error "Failed to get canvas context"), loading)).
Proof.
  intros Hurl loading. split.
  - intros Hdecode. unfold convertPngToBmp_try, mbind, loadImage.
    rewrite Hurl, Hdecode. reflexivity.
  - intros image Hdecode Hctx. unfold convertPngToBmp_try, mbind, loadImage.
    rewrite Hurl, Hdecode, Hctx. reflexivity.
Qed.

Lemma convertPngToBmp_try_failures_witness :
  resolve {| object_urls := [File.blob broken_png]; image_loads := [] |} 0%nat
  = Some (File.blob broken_png)
  /\ decode sample_browser (File.blob broken_png) = None
  /\ convertPngToBmp_try sample_browser broken_png 0%nat
       {| object_urls := [File.blob broken_png]; image_loads := [] |}
     = (Err ErrorEvent,
        {| object_urls := [File.blob broken_png]; image_loads := [0%nat] |}).
Proof.
  split; [reflexivity|]. split; [reflexivity|].
  apply (convertPngToBmp_try_failures sample_browser broken_png 0%nat
           {| object_urls := [File.blob broken_png]; image_loads := [] |}
           (File.blob broken_png) eq_refl).
  reflexivity.
Defined.
